(** * sempy_labs: mounted data factories and the Direct Lake connection remap

    A shallow embedding of
      - [src/sempy_labs/_mounted_data_factories.py]
        ([list_mounted_data_factories], [get_mounted_data_factory_definition],
        [delete_mounted_data_factory]) and
      - [sempy_labs/UpdateDirectLakeModelLakehouseConnection.py]
        ([update_direct_lake_model_lakehouse_connection]).

    Both files are straight-line Python that calls collaborators (the Fabric
    REST helper, the name resolvers, the TOM connection, [print]).  A call to
    a collaborator is an event of a small free monad; a handler answers the
    events and the interpreter records every call together with its answer,
    so that statements about "how many calls", "in which order" and "what was
    printed" are statements about the recorded trace, for every handler. *)

From Stdlib Require Import String List ZArith Bool Lia.
Import ListNotations.
Local Open Scope string_scope.
Local Open Scope list_scope.

Set Implicit Arguments.
Set Warnings "-register-all".

(** ** Python values

    JSON documents and Python arguments share one type.  A [dict] keeps its
    insertion order, so it is an association list; [VNone] is [None].
    Numbers are integers; no claim looks inside a number. *)

Inductive value : Type :=
| VNone
| VBool (b : bool)
| VInt (n : Z)
| VNaN                      (* the float nan pandas puts in a hole *)
| VStr (s : string)
| VList (l : list value)
| VDict (d : list (string * value)).

(** ** Exceptions and fallible results *)

Inductive exn : Type :=
| TypeError (msg : string)
| KeyError (key : string)
| AttributeError (attr : string)
| StopIteration
| Raised (cls : string).   (* anything raised inside a collaborator *)

Inductive result (A : Type) : Type :=
| Ok (a : A)
| Err (e : exn).
Arguments Ok {A} a.
Arguments Err {A} e.

Definition is_ok {A} (r : result A) : bool :=
  match r with Ok _ => true | Err _ => false end.

Definition rbind {A B} (r : result A) (f : A -> result B) : result B :=
  match r with Ok a => f a | Err e => Err e end.

(** ** Dictionary and sequence primitives *)

Fixpoint assoc (k : string) (d : list (string * value)) : option value :=
  match d with
  | [] => None
  | (k', v) :: d' => if String.eqb k' k then Some v else assoc k d'
  end.

(** [x.get(k, default)]: only a dict has the method. *)
Definition py_get_default (x : value) (k : string) (default : value) : result value :=
  match x with
  | VDict d => Ok (match assoc k d with Some v => v | None => default end)
  | _ => Err (AttributeError "get")
  end.

(** [x.get(k)] *)
Definition py_get (x : value) (k : string) : result value :=
  py_get_default x k VNone.

(** [x[k]] with a string key. *)
Definition py_getitem (x : value) (k : string) : result value :=
  match x with
  | VDict d => match assoc k d with Some v => Ok v | None => Err (KeyError k) end
  | _ => Err (TypeError "subscript")
  end.

Fixpoint chars (s : string) : list value :=
  match s with
  | EmptyString => []
  | String c s' => VStr (String c EmptyString) :: chars s'
  end.

(** [iter(x)]: what a [for] loop or a generator walks over. *)
Definition py_iter (x : value) : result (list value) :=
  match x with
  | VList l => Ok l
  | VDict d => Ok (map (fun kv => VStr (fst kv)) d)
  | VStr s => Ok (chars s)
  | _ => Err (TypeError "not iterable")
  end.

(** [x == s] for a string [s]: a non-string never equals a string. *)
Definition py_eq_str (x : value) (s : string) : bool :=
  match x with VStr s' => String.eqb s' s | _ => false end.

(** ** The free monad of collaborator calls *)

Section Prog.
Variable E : Type -> Type.

Inductive prog (A : Type) : Type :=
| Ret (a : A)
| Vis (X : Type) (e : E X) (k : X -> prog A).

Fixpoint bind {A B} (p : prog A) (f : A -> prog B) : prog B :=
  match p with
  | Ret a => f a
  | Vis e k => Vis e (fun x => bind (k x) f)
  end.

(** One recorded call: the event and the answer it got. *)
Inductive entry : Type :=
| Entry (X : Type) (e : E X) (x : X).

Definition handler (W : Type) : Type := forall X, E X -> W -> X * W.

(** The interpreter: total, since a program is a finite tree. *)
Fixpoint run {W A} (h : handler W) (p : prog A) (w : W) : A * list entry * W :=
  match p with
  | Ret a => (a, [], w)
  | Vis e k =>
      let '(x, w1) := h _ e w in
      let '(a, tr, w2) := run h (k x) w1 in
      (a, Entry e x :: tr, w2)
  end.

(** Exceptions: a computation returns a [result]; [mbind] stops at the
    first [Err], which is how a raised exception leaves a function body. *)
Definition M (A : Type) : Type := prog (result A).

Definition mret {A} (a : A) : M A := Ret (Ok a).
Definition raise {A} (e : exn) : M A := Ret (Err e).
Definition mbind {A B} (p : M A) (f : A -> M B) : M B :=
  bind p (fun r => match r with Ok a => f a | Err e => Ret (Err e) end).
Definition lift {A} (r : result A) : M A := Ret r.

(** [try: p except: h] with a bare [except]. *)
Definition try_except {A} (p : M A) (h : exn -> M A) : M A :=
  bind p (fun r => match r with Ok a => Ret (Ok a) | Err e => h e end).

End Prog.

Arguments Ret {E A} a.
Arguments Vis {E A X} e k.
Arguments Entry {E X} e x.
Arguments mret {E A} a.
Arguments raise {E A} e.
Arguments lift {E A} r.

Declare Scope prog_scope.
Delimit Scope prog_scope with prog.
Notation "x <- c1 ;; c2" := (mbind c1 (fun x => c2))
  (at level 100, c1 at next level, right associativity) : prog_scope.
Notation "c1 ;;; c2" := (mbind c1 (fun _ => c2))
  (at level 100, right associativity) : prog_scope.

(** Projections of an interpreter outcome. *)
Definition run_result {E W A} (o : A * list (entry E) * W) : A := fst (fst o).
Definition run_trace {E W A} (o : A * list (entry E) * W) : list (entry E) := snd (fst o).
Definition run_world {E W A} (o : A * list (entry E) * W) : W := snd o.

(** A collaborator call that may raise. *)
Definition call {E A} (e : E (result A)) : M E A := Vis e (fun r => Ret r).

(** [for a in l: s = body(s, a)], stopping at the first exception. *)
Fixpoint for_each {A S} (l : list A) (s : S) (body : S -> A -> result S) : result S :=
  match l with
  | [] => Ok s
  | a :: l' => rbind (body s a) (fun s' => for_each l' s' body)
  end.

(** ** pandas frames

    A frame is its column labels and its rows, each row aligned with the
    labels.  Cells hold the Python value that was put in; what pandas does
    with a list or a dict as a cell value is outside the model, and the
    statements about frames are about scalar cells. *)

Record DataFrame : Type := mkDataFrame {
  labels : list string;   (* [df.columns] *)
  rows : list (list value)
}.

Definition scalar (v : value) : bool :=
  match v with
  | VList _ | VDict _ => false
  | _ => true
  end.

(** [len(df)] *)
Definition len (df : DataFrame) : nat := length (rows df).

(** [pd.DataFrame(data, index=[0])]: one row, one column per key. *)
Definition pd_DataFrame (data : list (string * value)) : DataFrame :=
  {| labels := map fst data; rows := [map snd data] |}.

Definition mem (c : string) (cs : list string) : bool :=
  existsb (String.eqb c) cs.

Definition union_columns (c1 c2 : list string) : list string :=
  c1 ++ filter (fun c => negb (mem c c1)) c2.

(** The cell of [row] under label [c]; a label the row does not have is a hole. *)
Definition cell_at (cols : list string) (row : list value) (c : string) : value :=
  match assoc c (combine cols row) with
  | Some v => v
  | None => VNaN
  end.

Definition realign (cols : list string) (df : DataFrame) : list (list value) :=
  map (fun row => map (cell_at (labels df) row) cols) (rows df).

(** [pd.concat([df1, df2], ignore_index=True)]: the rows of [df1] then those
    of [df2], over the union of the labels. *)
Definition pd_concat (df1 df2 : DataFrame) : DataFrame :=
  let cols := union_columns (labels df1) (labels df2) in
  {| labels := cols; rows := realign cols df1 ++ realign cols df2 |}.

Fixpoint index_of (c : string) (cs : list string) : option nat :=
  match cs with
  | [] => None
  | c' :: cs' => if String.eqb c' c then Some 0%nat
                 else option_map S (index_of c cs')
  end.

(** [df[c]]: the column as a list of cells. *)
Definition df_column (df : DataFrame) (c : string) : result (list value) :=
  match index_of c (labels df) with
  | Some i => Ok (map (fun row => nth i row VNaN) (rows df))
  | None => Err (KeyError c)
  end.

(** [df[df[c] == s]]: the rows whose cell under [c] equals the string [s]. *)
Definition df_filter_eq (df : DataFrame) (c : string) (s : string) : result DataFrame :=
  rbind (df_column df c) (fun col =>
    let mask := map (fun v => py_eq_str v s) col in
    Ok {| labels := labels df;
          rows := map fst (filter snd (combine (rows df) mask)) |}).

(** ** Binding the arguments of a call

    A signature lists the parameters in order, each with its default if it
    has one.  Python binds the positional arguments first, then the keyword
    arguments, then the defaults; a parameter left without a value is a
    [TypeError] raised before the body runs. *)

Record call_args : Type := mkCall {
  positional : list value;
  keywords : list (string * value)
}.

Definition param : Type := (string * option value)%type.

Fixpoint bind_positional (sig : list param) (args : list value)
  : result (list (string * value) * list param) :=
  match args, sig with
  | [], _ => Ok ([], sig)
  | _ :: _, [] => Err (TypeError "too many positional arguments")
  | a :: args', (n, _) :: sig' =>
      rbind (bind_positional sig' args')
            (fun br => Ok ((n, a) :: fst br, snd br))
  end.

(** Every keyword must name a parameter that is still unbound, once. *)
Fixpoint check_keywords (unbound : list string) (kws : list (string * value)) : result unit :=
  match kws with
  | [] => Ok tt
  | (k, _) :: kws' =>
      if negb (mem k unbound) then Err (TypeError "unexpected or repeated keyword argument")
      else if mem k (map fst kws') then Err (TypeError "keyword argument repeated")
      else check_keywords unbound kws'
  end.

Fixpoint bind_rest (rest : list param) (kws : list (string * value))
  : result (list (string * value)) :=
  match rest with
  | [] => Ok []
  | (n, d) :: rest' =>
      match assoc n kws, d with
      | Some v, _ => rbind (bind_rest rest' kws) (fun b => Ok ((n, v) :: b))
      | None, Some dv => rbind (bind_rest rest' kws) (fun b => Ok ((n, dv) :: b))
      | None, None => Err (TypeError "missing required argument")
      end
  end.

Definition bind_params (sig : list param) (c : call_args) : result (list (string * value)) :=
  rbind (bind_positional sig (positional c)) (fun br =>
  rbind (check_keywords (map fst (snd br)) (keywords c)) (fun _ =>
  rbind (bind_rest (snd br) (keywords c)) (fun b =>
  Ok (fst br ++ b)))).

(** The value bound to parameter [n]. *)
Definition arg (env : list (string * value)) (n : string) : value :=
  match assoc n env with Some v => v | None => VNone end.

(** * [_mounted_data_factories.py] *)

Module MountedDataFactories.

(** The keyword arguments [_base_api] is called with besides [request];
    [None] is a keyword the call does not pass. *)
Record api_kwargs : Type := mkKwargs {
  method : option string;
  uses_pagination : option bool;
  lro_return_json : option bool;
  status_codes : option value
}.

(** The collaborators of the module that act on the service or the
    console: [sempy_labs._helper_functions] and [sempy.fabric]. *)
Inductive mdfE : Type -> Type :=
| ResolveWorkspaceNameAndId (workspace : value)
    : mdfE (result (string * string))
| BaseApi (request : string) (kw : api_kwargs)
    : mdfE (result value)
| ResolveItemId (item : value) (type : string) (workspace : value)
    : mdfE (result string)
| ResolveItemNameAndId (item : value) (type : string) (workspace : value)
    : mdfE (result (string * string))
| FabricDeleteItem (item_id : string) (type : string) (workspace : value)
    : mdfE (result unit)
| PrintSuccess (item_name item_type action : string)
    : mdfE (result unit).

Local Open Scope prog_scope.

Definition columns : list (string * string) :=
  [ ("Mounted Data Factory Name", "str");
    ("Mounted Data Factory Id", "str");
    ("Description", "str") ].

(** The dict [new_data] built for one item record [v] (lines 56-60). *)
Definition new_data (v : value) : result (list (string * value)) :=
  rbind (py_get v "displayName") (fun name =>
  rbind (py_get v "id") (fun id =>
  rbind (py_get v "description") (fun description =>
  Ok [ ("Mounted Data Factory Name", name);
       ("Mounted Data Factory Id", id);
       ("Description", description) ]))).

(** The body of the inner loop (lines 55-62). *)
Definition add_record (df : DataFrame) (v : value) : result DataFrame :=
  rbind (new_data v) (fun d => Ok (pd_concat df (pd_DataFrame d))).

(** The body of the outer loop (lines 54-62). *)
Definition add_page (df : DataFrame) (r : value) : result DataFrame :=
  rbind (py_get_default r "value" (VList [])) (fun value0 =>
  rbind (py_iter value0) (fun vs =>
  for_each vs df add_record)).

(** [next(p.get("payload") for p in parts if p.get("path") == path)] *)
Fixpoint next_payload (path : string) (parts : list value) : result value :=
  match parts with
  | [] => Err StopIteration
  | p :: parts' =>
      rbind (py_get p "path") (fun x =>
        if py_eq_str x path then py_get p "payload"
        else next_payload path parts')
  end.

Section WithHelpers.
(** Pure helpers whose code is not part of the module: the two frame
    helpers of [_helper_functions], [_decode_b64] and [json.loads]. *)
Variable _create_dataframe : list (string * string) -> DataFrame.
Variable _update_dataframe_datatypes :
  DataFrame -> list (string * string) -> result DataFrame.
Variable _decode_b64 : value -> result string.
Variable json_loads : string -> result value.

Definition list_mounted_data_factories (workspace : value) : M mdfE DataFrame :=
  ws <- call (ResolveWorkspaceNameAndId workspace) ;;
  let workspace_id := snd ws in
  let df := _create_dataframe columns in
  responses <- call (BaseApi
      ("/v1/workspaces/" ++ workspace_id ++ "/mountedDataFactories")
      {| method := None; uses_pagination := Some true;
         lro_return_json := None; status_codes := None |}) ;;
  lift (rbind (py_iter responses) (fun rs =>
        rbind (for_each rs df add_page) (fun df =>
        (* the helper changes [df] in place *)
        rbind (_update_dataframe_datatypes df columns) (fun df =>
        Ok df)))).

Definition get_mounted_data_factory_definition
    (mounted_data_factory workspace : value) : M mdfE value :=
  ws <- call (ResolveWorkspaceNameAndId workspace) ;;
  let workspace_id := snd ws in
  item_id <- call (ResolveItemId mounted_data_factory "MountedDataFactory" workspace) ;;
  let path := "mountedDataFactory-content.json" in
  result <- call (BaseApi
      ("/v1/workspaces/" ++ workspace_id ++ "/mountedDataFactories/"
         ++ item_id ++ "/getDefinition")
      {| method := Some "post"; uses_pagination := None;
         lro_return_json := Some true; status_codes := Some VNone |}) ;;
  lift (rbind (py_getitem result "definition") (fun definition =>
        rbind (py_getitem definition "parts") (fun parts =>
        rbind (py_iter parts) (fun ps =>
        rbind (next_payload path ps) (fun payload =>
        rbind (_decode_b64 payload) json_loads))))).

Definition delete_mounted_data_factory
    (mounted_data_factory workspace : value) : M mdfE unit :=
  item <- call (ResolveItemNameAndId mounted_data_factory "MountedDataFactory" workspace) ;;
  let item_name := fst item in
  let item_id := snd item in
  call (FabricDeleteItem item_id "MountedDataFactory" workspace) ;;;
  call (PrintSuccess item_name "Mounted Data Factory" "deleted").

(** The three [def] lines: which parameters have a default. *)
Definition sig_list_mounted_data_factories : list param :=
  [ ("workspace", Some VNone) ].
Definition sig_get_mounted_data_factory_definition : list param :=
  [ ("mounted_data_factory", None); ("workspace", Some VNone) ].
Definition sig_delete_mounted_data_factory : list param :=
  [ ("mounted_data_factory", None); ("workspace", None) ].

(** A call of each function: bind the arguments, then run the body. *)
Definition call_list_mounted_data_factories (c : call_args) : M mdfE DataFrame :=
  env <- lift (bind_params sig_list_mounted_data_factories c) ;;
  list_mounted_data_factories (arg env "workspace").

Definition call_get_mounted_data_factory_definition (c : call_args) : M mdfE value :=
  env <- lift (bind_params sig_get_mounted_data_factory_definition c) ;;
  get_mounted_data_factory_definition
    (arg env "mounted_data_factory") (arg env "workspace").

Definition call_delete_mounted_data_factory (c : call_args) : M mdfE unit :=
  env <- lift (bind_params sig_delete_mounted_data_factory c) ;;
  delete_mounted_data_factory
    (arg env "mounted_data_factory") (arg env "workspace").
End WithHelpers.

End MountedDataFactories.

(** * [UpdateDirectLakeModelLakehouseConnection.py] *)

Module UpdateDirectLake.

(** The object [connect_semantic_model] yields, and an expression object
    of its model: references into the collaborator. *)
Definition tom_ref : Type := nat.
Definition expr_ref : Type := string.

(** The collaborators: [sempy.fabric], [HelperFunctions],
    [GetSharedExpression], the context manager of [TOM] with the object
    model behind it, and [print]. *)
Inductive dlE : Type -> Type :=
| FabricGetWorkspaceId : dlE (result string)
| FabricResolveWorkspaceName (workspace_id : string) : dlE (result string)
| FabricResolveWorkspaceId (workspace : string) : dlE (result string)
| FabricGetLakehouseId : dlE (result string)
| ResolveLakehouseName (lakehouse_id : string) (workspace : string)
    : dlE (result string)
| FabricListItems (workspace : string) (type : string) : dlE (result DataFrame)
| FabricListPartitions (dataset : string) (workspace : string)
    : dlE (result DataFrame)
| GetSharedExpression (lakehouse : string) (workspace : string)
    : dlE (result value)
| ConnectEnter (dataset : string) (readonly : bool) (workspace : string)
    : dlE (result tom_ref)                    (* [__enter__] *)
| ConnectExit (tom : tom_ref) (exc : option exn)
    : dlE (result bool)                       (* [__exit__] *)
| ExpressionsItem (tom : tom_ref) (name : string)
    : dlE (result expr_ref)                   (* [tom.model.Expressions[name]] *)
| SetExpression (x : expr_ref) (v : value)
    : dlE (result unit)                       (* [x.Expression = v] *)
| Print (msg : string) : dlE unit.

Local Open Scope prog_scope.

Definition print (msg : string) : M dlE unit :=
  Vis (Print msg) (fun _ => Ret (Ok tt)).

(** [with mgr as t: body]: [__exit__] runs when the body ends, with the
    exception that ended it if there is one; an exception of the body is
    raised again unless [__exit__] returns true; an exception of
    [__enter__] or of [__exit__] itself leaves the statement. *)
Definition with_as {T} (enter : dlE (result T))
    (exit : T -> option exn -> dlE (result bool)) (body : T -> M dlE unit)
  : M dlE unit :=
  t <- call enter ;;
  bind (body t) (fun r =>
    match r with
    | Ok _ => call (exit t None) ;;; mret tt
    | Err e =>
        suppress <- call (exit t (Some e)) ;;
        if (suppress : bool) then mret tt else raise e
    end).

Definition msg_no_lakehouse (lakehouse lakehouse_workspace dataset workspace : string) : string :=
  "The '" ++ lakehouse ++ "' lakehouse does not exist within the '"
    ++ lakehouse_workspace
    ++ "' workspace. Therefore it cannot be used to support the '"
    ++ dataset ++ "' semantic model within the '" ++ workspace ++ "' workspace.".

Definition msg_not_direct_lake (dataset : string) : string :=
  "The '" ++ dataset
    ++ "' semantic model is not in Direct Lake. This function is only applicable to Direct Lake semantic models.".

Definition msg_updated (dataset lakehouse lakehouse_workspace : string) : string :=
  "The expression in the '" ++ dataset
    ++ "' semantic model has been updated to point to the '" ++ lakehouse
    ++ "' lakehouse in the '" ++ lakehouse_workspace ++ "' workspace.".

Definition msg_error (dataset : string) : string :=
  "ERROR: The expression in the '" ++ dataset
    ++ "' semantic model was not updated.".

Definition update_direct_lake_model_lakehouse_connection
    (dataset : string) (workspace lakehouse lakehouse_workspace : option string)
  : M dlE unit :=
  ws <- match workspace with
        | None =>
            workspace_id <- call FabricGetWorkspaceId ;;
            workspace <- call (FabricResolveWorkspaceName workspace_id) ;;
            mret (workspace, workspace_id)
        | Some workspace =>
            workspace_id <- call (FabricResolveWorkspaceId workspace) ;;
            mret (workspace, workspace_id)
        end ;;
  let workspace := fst ws in
  let lakehouse_workspace :=
    match lakehouse_workspace with
    | None => workspace
    | Some lw => lw
    end in
  lakehouse <- match lakehouse with
               | None =>
                   lakehouse_id <- call FabricGetLakehouseId ;;
                   call (ResolveLakehouseName lakehouse_id lakehouse_workspace)
               | Some lakehouse => mret lakehouse
               end ;;
  (* Check if lakehouse is valid *)
  dfI <- call (FabricListItems lakehouse_workspace "Lakehouse") ;;
  dfI_filt <- lift (df_filter_eq dfI "Display Name" lakehouse) ;;
  (if Nat.eqb (len dfI_filt) 0
   then print (msg_no_lakehouse lakehouse lakehouse_workspace dataset workspace)
   else mret tt) ;;;
  dfP <- call (FabricListPartitions dataset workspace) ;;
  dfP_filt <- lift (df_filter_eq dfP "Mode" "DirectLake") ;;
  if Nat.eqb (len dfP_filt) 0
  then print (msg_not_direct_lake dataset)
  else
    with_as (ConnectEnter dataset false workspace) ConnectExit (fun tom =>
      shEx <- call (GetSharedExpression lakehouse lakehouse_workspace) ;;
      try_except
        (x <- call (ExpressionsItem tom "DatabaseQuery") ;;
         call (SetExpression x shEx) ;;;
         print (msg_updated dataset lakehouse lakehouse_workspace))
        (fun _ => print (msg_error dataset))).

End UpdateDirectLake.

(** ** Reading a trace *)

(** The answers a trace holds for the calls picked by [sel]. *)
Definition answers {E A} (sel : entry E -> option A) (tr : list (entry E)) : list A :=
  flat_map (fun en => match sel en with Some a => [a] | None => [] end) tr.

(** How many entries of a trace satisfy [f]. *)
Definition count {E} (f : entry E -> bool) (tr : list (entry E)) : nat :=
  length (filter f tr).

Module MdfTrace.
Import MountedDataFactories.

Definition delete_answer (en : entry mdfE) : option (result unit) :=
  match en with
  | Entry e x =>
      match e in mdfE X return X -> option (result unit) with
      | FabricDeleteItem _ _ _ => fun r => Some r
      | _ => fun _ => None
      end x
  end.

Definition is_delete_call (en : entry mdfE) : bool :=
  match delete_answer en with Some _ => true | None => false end.

Definition is_print_success (en : entry mdfE) : bool :=
  match en with
  | Entry e _ => match e with PrintSuccess _ _ _ => true | _ => false end
  end.

Definition item_pair_answer (en : entry mdfE) : option (result (string * string)) :=
  match en with
  | Entry e x =>
      match e in mdfE X return X -> option (result (string * string)) with
      | ResolveItemNameAndId _ _ _ => fun r => Some r
      | _ => fun _ => None
      end x
  end.

Definition base_api_answer (en : entry mdfE) : option (result value) :=
  match en with
  | Entry e x =>
      match e in mdfE X return X -> option (result value) with
      | BaseApi _ _ => fun r => Some r
      | _ => fun _ => None
      end x
  end.

Definition is_workspace_resolution (en : entry mdfE) : bool :=
  match en with
  | Entry e _ => match e with ResolveWorkspaceNameAndId _ => true | _ => false end
  end.

(** A call that goes to the remote service. *)
Definition is_request (en : entry mdfE) : bool :=
  match en with
  | Entry e _ =>
      match e with
      | BaseApi _ _ | FabricDeleteItem _ _ _ => true
      | _ => false
      end
  end.
End MdfTrace.

Module DlTrace.
Import UpdateDirectLake.

Definition partitions_answer (en : entry dlE) : option (result DataFrame) :=
  match en with
  | Entry e x =>
      match e in dlE X return X -> option (result DataFrame) with
      | FabricListPartitions _ _ => fun r => Some r
      | _ => fun _ => None
      end x
  end.

Definition shared_expression_answer (en : entry dlE) : option (result value) :=
  match en with
  | Entry e x =>
      match e in dlE X return X -> option (result value) with
      | GetSharedExpression _ _ => fun r => Some r
      | _ => fun _ => None
      end x
  end.

Definition enter_answer (en : entry dlE) : option (result tom_ref) :=
  match en with
  | Entry e x =>
      match e in dlE X return X -> option (result tom_ref) with
      | ConnectEnter _ _ _ => fun r => Some r
      | _ => fun _ => None
      end x
  end.

(** An exit: the connection, the exception handed in, the answer. *)
Definition exit_of (en : entry dlE) : option (tom_ref * option exn * result bool) :=
  match en with
  | Entry e x =>
      match e in dlE X return X -> option (tom_ref * option exn * result bool) with
      | ConnectExit t exc => fun r => Some (t, exc, r)
      | _ => fun _ => None
      end x
  end.

(** A lookup in [Expressions]: the name asked for and the answer. *)
Definition lookup_of (en : entry dlE) : option (string * result expr_ref) :=
  match en with
  | Entry e x =>
      match e in dlE X return X -> option (string * result expr_ref) with
      | ExpressionsItem _ name => fun r => Some (name, r)
      | _ => fun _ => None
      end x
  end.

(** A property write: the expression, the value written, the answer. *)
Definition write_of (en : entry dlE) : option (expr_ref * value * result unit) :=
  match en with
  | Entry e x =>
      match e in dlE X return X -> option (expr_ref * value * result unit) with
      | SetExpression x0 v => fun r => Some (x0, v, r)
      | _ => fun _ => None
      end x
  end.

Definition printed (en : entry dlE) : option string :=
  match en with
  | Entry e _ => match e with Print msg => Some msg | _ => None end
  end.

(** A call that opens, uses or closes the connection to the model. *)
Definition is_connection_event (en : entry dlE) : bool :=
  match en with
  | Entry e _ =>
      match e with
      | ConnectEnter _ _ _ | ConnectExit _ _
      | ExpressionsItem _ _ | SetExpression _ _ => true
      | _ => false
      end
  end.

(** A call that resolves the workspace: its id from the ambient context or
    from a name, or its name from an id. *)
Definition is_workspace_resolution (en : entry dlE) : bool :=
  match en with
  | Entry e _ =>
      match e with
      | FabricGetWorkspaceId | FabricResolveWorkspaceName _
      | FabricResolveWorkspaceId _ => true
      | _ => false
      end
  end.

(** A call that finds the lakehouse attached to the notebook. *)
Definition is_lakehouse_resolution (en : entry dlE) : bool :=
  match en with
  | Entry e _ =>
      match e with
      | FabricGetLakehouseId | ResolveLakehouseName _ _ => true
      | _ => false
      end
  end.

(** The life of the connection along a trace: not opened yet, open with
    the expression objects obtained through it, or over. *)
Inductive scope : Type :=
| Idle
| Open (t : tom_ref) (refs : list expr_ref)
| Over.

Definition scope_step (s : scope) (en : entry dlE) : option scope :=
  match en with
  | Entry e x =>
      match e in dlE X return X -> option scope with
      | ConnectEnter _ _ _ => fun r =>
          match s, r with
          | Idle, Ok t => Some (Open t [])
          | Idle, Err _ => Some Over
          | _, _ => None
          end
      | ConnectExit t' _ => fun _ =>
          match s with
          | Open t _ => if Nat.eqb t t' then Some Over else None
          | _ => None
          end
      | ExpressionsItem t' _ => fun r =>
          match s with
          | Open t refs =>
              if Nat.eqb t t'
              then Some (Open t (match r with Ok x0 => x0 :: refs | Err _ => refs end))
              else None
          | _ => None
          end
      | SetExpression x0 _ => fun _ =>
          match s with
          | Open t refs => if mem x0 refs then Some s else None
          | _ => None
          end
      | _ => fun _ => Some s
      end x
  end.

Fixpoint scope_after (s : scope) (tr : list (entry dlE)) : option scope :=
  match tr with
  | [] => Some s
  | en :: tr' =>
      match scope_step s en with
      | Some s' => scope_after s' tr'
      | None => None
      end
  end.

(** The exit a trace ends with, if it ends with one. *)
Definition last_exit (tr : list (entry dlE))
  : option (tom_ref * option exn * result bool) :=
  match rev tr with
  | en :: _ => exit_of en
  | [] => None
  end.

(** The trace opens the connection at most once, touches the model only
    while it is open, and does not end with it open. *)
Definition well_scoped (tr : list (entry dlE)) : bool :=
  match scope_after Idle tr with
  | Some Idle | Some Over => true
  | _ => false
  end.
End DlTrace.

(** ** The metadata connection provider *)

Module Provider.
Import UpdateDirectLake.

(** The expressions of the published model by name, the working copy of
    an open connection with its read-only flag, and whether the service
    will accept the next save. *)
Record tom_state : Type := mkTom {
  published : list (string * value);
  working : option (bool * list (string * value));
  save_ok : bool
}.

Definition has (name : string) (m : list (string * value)) : bool :=
  match assoc name m with Some _ => true | None => false end.

Fixpoint set (name : string) (v : value) (m : list (string * value))
  : list (string * value) :=
  match m with
  | [] => [(name, v)]
  | (k, v') :: m' =>
      if String.eqb k name then (k, v) :: m' else (k, v') :: set name v m'
  end.

(** Modelled from the spec: [connect_semantic_model] and the object model
    behind it ([TOM.py], not among the sources).  The spec describes "a
    scoped read/write handle to a semantic model's object model, keyed by
    model name and workspace, with an explicit read-only/read-write mode
    flag", used as "open, mutate, commit/release on all exit paths", where
    a failed commit leaves "the model's prior expression unchanged (no
    partial writes)".  So: entering takes a working copy; a lookup of a
    name the model does not have fails; a write changes the working copy;
    leaving saves the working copy as a whole when the connection is
    read/write and the service accepts it, raises when the service does
    not, and closes the connection either way. *)
Definition tom_answer {X} (e : dlE X) (t : tom_state) : option (X * tom_state) :=
  match e in dlE X return option (X * tom_state) with
  | ConnectEnter _ readonly _ =>
      Some (Ok 0%nat,
            {| published := published t;
               working := Some (readonly, published t);
               save_ok := save_ok t |})
  | ExpressionsItem _ name =>
      Some (match working t with
            | Some (_, m) => if has name m then Ok name else Err (KeyError name)
            | None => Err (Raised "ObjectDisposedException")
            end, t)
  | SetExpression x v =>
      match working t with
      | Some (ro, m) =>
          Some (Ok tt,
                {| published := published t;
                   working := Some (ro, set x v m);
                   save_ok := save_ok t |})
      | None => Some (Err (Raised "ObjectDisposedException"), t)
      end
  | ConnectExit _ _ =>
      match working t with
      | Some (ro, m) =>
          if ro then
            Some (Ok false,
                  {| published := published t; working := None;
                     save_ok := save_ok t |})
          else if save_ok t then
            Some (Ok false,
                  {| published := m; working := None; save_ok := save_ok t |})
          else
            Some (Err (Raised "SaveChanges"),
                  {| published := published t; working := None;
                     save_ok := save_ok t |})
      | None => Some (Ok false, t)
      end
  | _ => None
  end.

(** The provider next to a handler [h] for every other collaborator. *)
Definition provider {W} (h : handler dlE W) : handler dlE (W * tom_state) :=
  fun X e wt =>
    match tom_answer e (snd wt) with
    | Some (x, t') => (x, (fst wt, t'))
    | None => let '(x, w') := h X e (fst wt) in (x, (w', snd wt))
    end.
End Provider.

(** ** Reading a listing and a definition bundle *)

Module MdfShape.
Import MountedDataFactories.

Definition is_dict (v : value) : bool :=
  match v with VDict _ => true | _ => false end.

(** The value a record holds under [k], [None] when it has no such key. *)
Definition field (v : value) (k : string) : value :=
  match v with
  | VDict d => match assoc k d with Some x => x | None => VNone end
  | _ => VNone
  end.

(** The row a record stands for. *)
Definition row_of (v : value) : list value :=
  [field v "displayName"; field v "id"; field v "description"].

(** An item record: a JSON object whose three fields are scalars. *)
Definition is_record (v : value) : bool :=
  is_dict v && forallb scalar (row_of v).

(** The records of one page of a listing. *)
Definition page_records (page : value) : result (list value) :=
  rbind (py_get_default page "value" (VList [])) py_iter.

Definition names : list string := map fst columns.

(** The path of the part that holds the definition. *)
Definition content_path : string := "mountedDataFactory-content.json".

(** The part is a JSON object whose path is [path]. *)
Definition has_path (path : string) (p : value) : bool :=
  match p with
  | VDict _ => py_eq_str (field p "path") path
  | _ => false
  end.

(** Every row has one cell per column of the listing. *)
Definition three_cells (rws : list (list value)) : Prop :=
  Forall (fun row => length row = 3%nat) rws.


(** No request goes to the service before the first workspace resolution. *)
Fixpoint no_request_before_resolution (tr : list (entry mdfE)) : bool :=
  match tr with
  | [] => true
  | en :: tr' =>
      if MdfTrace.is_workspace_resolution en then true
      else negb (MdfTrace.is_request en) && no_request_before_resolution tr'
  end.

(** Exactly one workspace pair is resolved, and that before any request. *)
Definition workspace_pair_resolved (tr : list (entry mdfE)) : bool :=
  Nat.eqb (count MdfTrace.is_workspace_resolution tr) 1
  && no_request_before_resolution tr.
End MdfShape.

(** ** Handlers to run the functions on *)

Module Demo.
Import MountedDataFactories UpdateDirectLake.

(** The listing of a workspace with the two factories DF1 and DF2, on one
    page. *)
Definition two_items : value :=
  VList [ VDict [ ("value",
            VList [ VDict [("id", VStr "id1"); ("displayName", VStr "DF1")];
                    VDict [("id", VStr "id2"); ("displayName", VStr "DF2")] ]) ] ].

(** A definition bundle with the content part twice. *)
Definition bundle : value :=
  VDict [ ("definition",
    VDict [ ("parts",
      VList [ VDict [("path", VStr ".platform"); ("payload", VStr "e30=")];
              VDict [("path", VStr "mountedDataFactory-content.json");
                     ("payload", VStr "first")];
              VDict [("path", VStr "mountedDataFactory-content.json");
                     ("payload", VStr "second")] ]) ]) ].

(** A definition bundle without the content part. *)
Definition bundle_without : value :=
  VDict [ ("definition",
    VDict [ ("parts",
      VList [ VDict [("path", VStr ".platform"); ("payload", VStr "e30=")] ]) ]) ].

(** A service that answers the listing request with [listing], the
    definition request with [definition], and deletes when [deletable];
    its world counts the calls it answered. *)
Definition service (listing definition : value) (deletable : bool)
  : handler mdfE nat :=
  fun X e n =>
    (match e in mdfE X return X with
     | ResolveWorkspaceNameAndId _ => Ok ("ws", "wid")
     | BaseApi _ kw =>
         Ok (match uses_pagination kw with
             | Some true => listing
             | _ => definition
             end)
     | ResolveItemId _ _ _ => Ok "id1"
     | ResolveItemNameAndId _ _ _ => Ok ("DF1", "id1")
     | FabricDeleteItem _ _ _ =>
         if deletable then Ok tt else Err (Raised "FabricHTTPException")
     | PrintSuccess _ _ _ => Ok tt
     end, S n).

(** Stand-ins for the pure helpers. *)
Definition create_dataframe (cm : list (string * string)) : DataFrame :=
  {| labels := map fst cm; rows := [] |}.

Definition astype_str (v : value) : value :=
  match v with
  | VStr s => VStr s
  | VNone => VStr "None"
  | VNaN => VStr "nan"
  | _ => v
  end.

Definition update_dataframe_datatypes (df : DataFrame) (cm : list (string * string))
  : result DataFrame :=
  Ok {| labels := labels df; rows := map (map astype_str) (rows df) |}.

Definition decode_b64 (v : value) : result string :=
  match v with
  | VStr s => Ok s
  | _ => Err (TypeError "argument should be a bytes-like object or ASCII string")
  end.

Definition json_loads (s : string) : result value := Ok (VDict [("text", VStr s)]).

(** A Direct Lake model ["Sales"] in workspace ["ws"], and a lakehouse. *)
Definition partitions (mode : string) : DataFrame :=
  {| labels := ["Table Name"; "Mode"];
     rows := [[VStr "Orders"; VStr mode]] |}.

Definition lakehouses : DataFrame :=
  {| labels := ["Id"; "Display Name"];
     rows := [[VStr "lh1"; VStr "Lake"]] |}.

(** Collaborators of the remap: the partitions are in [mode]; [write_ok]
    and [exit_ok] say whether the write and the exit succeed. *)
Definition fabric (mode : string) (write_ok exit_ok : bool) : handler dlE nat :=
  fun X e n =>
    (match e in dlE X return X with
     | FabricGetWorkspaceId => Ok "wid"
     | FabricResolveWorkspaceName _ => Ok "ws"
     | FabricResolveWorkspaceId _ => Ok "wid"
     | FabricGetLakehouseId => Ok "lh1"
     | ResolveLakehouseName _ _ => Ok "Lake"
     | FabricListItems _ _ => Ok lakehouses
     | FabricListPartitions _ _ => Ok (partitions mode)
     | GetSharedExpression _ _ => Ok (VStr "let database = Sql.Database() in database")
     | ConnectEnter _ _ _ => Ok 7%nat
     | ConnectExit _ _ => if exit_ok then Ok false else Err (Raised "SaveChanges")
     | ExpressionsItem _ name => Ok name
     | SetExpression _ _ => if write_ok then Ok tt else Err (Raised "InvalidOperation")
     | Print _ => tt
     end, S n).

(** A published model with a 'DatabaseQuery' expression, no connection open. *)
Definition model : Provider.tom_state :=
  {| Provider.published := [("DatabaseQuery", VStr "old")];
     Provider.working := None;
     Provider.save_ok := true |}.
End Demo.

(** ** More of a trace of the mounted data factory functions *)

Module MdfCalls.
Import MountedDataFactories.

Definition workspace_pair_answer (en : entry mdfE) : option (result (string * string)) :=
  match en with
  | Entry e x =>
      match e in mdfE X return X -> option (result (string * string)) with
      | ResolveWorkspaceNameAndId _ => fun r => Some r
      | _ => fun _ => None
      end x
  end.

Definition item_id_answer (en : entry mdfE) : option (result string) :=
  match en with
  | Entry e x =>
      match e in mdfE X return X -> option (result string) with
      | ResolveItemId _ _ _ => fun r => Some r
      | _ => fun _ => None
      end x
  end.

(** A request to [_base_api]: its path and its keyword arguments. *)
Definition request_of (en : entry mdfE) : option (string * api_kwargs) :=
  match en with
  | Entry e _ =>
      match e with
      | BaseApi request kw => Some (request, kw)
      | _ => None
      end
  end.

(** A call of [_print_success]: its arguments and how it ended. *)
Definition print_success_call (en : entry mdfE)
  : option (string * string * string * result unit) :=
  match en with
  | Entry e x =>
      match e in mdfE X return X -> option (string * string * string * result unit) with
      | PrintSuccess item_name item_type action =>
          fun r => Some (item_name, item_type, action, r)
      | _ => fun _ => None
      end x
  end.

(** The keyword names a signature knows. *)
Definition parameters (sig : list param) : list string := map fst sig.
End MdfCalls.

(** ** More of a trace of the remap *)

Module DlCalls.
Import UpdateDirectLake.

(** A call of [fabric.list_items]: workspace, type and answer. *)
Definition items_call (en : entry dlE) : option (string * string * result DataFrame) :=
  match en with
  | Entry e x =>
      match e in dlE X return X -> option (string * string * result DataFrame) with
      | FabricListItems workspace type => fun r => Some (workspace, type, r)
      | _ => fun _ => None
      end x
  end.

Definition items_answer (en : entry dlE) : option (result DataFrame) :=
  option_map snd (items_call en).

Definition is_partitions_call (en : entry dlE) : bool :=
  match en with
  | Entry e _ => match e with FabricListPartitions _ _ => true | _ => false end
  end.

(** An entry into the connection: model, read-only flag, workspace, answer. *)
Definition enter_call (en : entry dlE)
  : option (string * bool * string * result tom_ref) :=
  match en with
  | Entry e x =>
      match e in dlE X return X -> option (string * bool * string * result tom_ref) with
      | ConnectEnter dataset readonly workspace =>
          fun r => Some (dataset, readonly, workspace, r)
      | _ => fun _ => None
      end x
  end.

(** A call of [get_shared_expression]: lakehouse, workspace and answer. *)
Definition shared_call (en : entry dlE) : option (string * string * result value) :=
  match en with
  | Entry e x =>
      match e in dlE X return X -> option (string * string * result value) with
      | GetSharedExpression lakehouse workspace => fun r => Some (lakehouse, workspace, r)
      | _ => fun _ => None
      end x
  end.

(** A call of [resolve_lakehouse_name]: id, workspace and answer. *)
Definition lakehouse_name_call (en : entry dlE)
  : option (string * string * result string) :=
  match en with
  | Entry e x =>
      match e in dlE X return X -> option (string * string * result string) with
      | ResolveLakehouseName lakehouse_id workspace =>
          fun r => Some (lakehouse_id, workspace, r)
      | _ => fun _ => None
      end x
  end.

Definition lakehouse_name_answer (en : entry dlE) : option (result string) :=
  option_map snd (lakehouse_name_call en).

Definition workspace_name_answer (en : entry dlE) : option (result string) :=
  match en with
  | Entry e x =>
      match e in dlE X return X -> option (result string) with
      | FabricResolveWorkspaceName _ => fun r => Some r
      | _ => fun _ => None
      end x
  end.

Definition is_exit (en : entry dlE) : bool :=
  match en with
  | Entry e _ => match e with ConnectExit _ _ => true | _ => false end
  end.

(** The exception of a resolver or of a listing that raised. *)
Definition resolution_error (en : entry dlE) : option exn :=
  match en with
  | Entry e x =>
      match e in dlE X return X -> option exn with
      | FabricGetWorkspaceId | FabricResolveWorkspaceName _
      | FabricResolveWorkspaceId _ | FabricGetLakehouseId
      | ResolveLakehouseName _ _ =>
          fun r => match r with Err ex => Some ex | Ok _ => None end
      | FabricListItems _ _ | FabricListPartitions _ _ =>
          fun r => match r with Err ex => Some ex | Ok _ => None end
      | _ => fun _ => None
      end x
  end.

(** [name] is the workspace of the model: the one given, or the name the
    ambient workspace id resolved to. *)
Definition workspace_is (workspace : option string) (tr : list (entry dlE))
    (name : string) : Prop :=
  match workspace with
  | Some ws => name = ws
  | None => In (Ok name) (answers workspace_name_answer tr)
  end.

(** [name] is the lakehouse: the one given, or the name the attached
    lakehouse resolved to. *)
Definition lakehouse_is (lakehouse : option string) (tr : list (entry dlE))
    (name : string) : Prop :=
  match lakehouse with
  | Some lh => name = lh
  | None => In (Ok name) (answers lakehouse_name_answer tr)
  end.

(** The workspace of the lakehouse: the one given, or that of the model. *)
Definition lakehouse_workspace_or (lakehouse_workspace : option string)
    (workspace : string) : string :=
  match lakehouse_workspace with
  | Some lw => lw
  | None => workspace
  end.
End DlCalls.

(** ** More handlers to run the functions on *)

Module DemoMore.
Import MountedDataFactories.

(** A resolver that knows no item. *)
Definition no_item : handler mdfE nat :=
  fun X e n =>
    (match e in mdfE X return X with
     | ResolveWorkspaceNameAndId _ => Ok ("ws", "wid")
     | BaseApi _ _ => Ok VNone
     | ResolveItemId _ _ _ => Err (Raised "ValueError")
     | ResolveItemNameAndId _ _ _ => Err (Raised "ValueError")
     | FabricDeleteItem _ _ _ => Ok tt
     | PrintSuccess _ _ _ => Ok tt
     end, S n).

(** Collaborators of the remap that answer as they are told: the two
    listings, the entry, the shared expression, the lookup, the write and
    the exit; the resolvers know the workspace "ws" and the lakehouse
    "Lake". *)
Definition collaborators (items partitions : result DataFrame)
    (enter : result UpdateDirectLake.tom_ref) (shared : result value)
    (lookup : result UpdateDirectLake.expr_ref) (write : result unit)
    (exit : result bool) : handler UpdateDirectLake.dlE nat :=
  fun X e n =>
    (match e in UpdateDirectLake.dlE X return X with
     | UpdateDirectLake.FabricGetWorkspaceId => Ok "wid"
     | UpdateDirectLake.FabricResolveWorkspaceName _ => Ok "ws"
     | UpdateDirectLake.FabricResolveWorkspaceId _ => Ok "wid"
     | UpdateDirectLake.FabricGetLakehouseId => Ok "lh1"
     | UpdateDirectLake.ResolveLakehouseName _ _ => Ok "Lake"
     | UpdateDirectLake.FabricListItems _ _ => items
     | UpdateDirectLake.FabricListPartitions _ _ => partitions
     | UpdateDirectLake.GetSharedExpression _ _ => shared
     | UpdateDirectLake.ConnectEnter _ _ _ => enter
     | UpdateDirectLake.ConnectExit _ _ => exit
     | UpdateDirectLake.ExpressionsItem _ _ => lookup
     | UpdateDirectLake.SetExpression _ _ => write
     | UpdateDirectLake.Print _ => tt
     end, S n).
End DemoMore.

(** ** Cells of a returned frame, and the order of a remap *)

Module MdfCells.
End MdfCells.

Module DlOrder.
Import UpdateDirectLake DlCalls.

(** The part of a trace before the partitions are listed. *)
Fixpoint before_partitions (tr : list (entry dlE)) : list (entry dlE) :=
  match tr with
  | [] => []
  | en :: tr' => if is_partitions_call en then [] else en :: before_partitions tr'
  end.
End DlOrder.

Unset Implicit Arguments.

(** * Properties of [_mounted_data_factories.py] *)

Module MountedDataFactoriesSpec.
Import MountedDataFactories MdfTrace MdfShape.

(** Ask the handler for its answer to the next call of the goal. *)
Ltac answer h :=
  match goal with
  | |- context [h ?X ?e ?w] =>
      let r := fresh "r" in
      let w' := fresh "w" in
      destruct (h X e w) as [r w']; simpl
  end.

(** Close a case whose trace cannot hold the answer a hypothesis names. *)
Ltac absent :=
  repeat match goal with
         | H : In _ _ |- _ => simpl in H
         | H : _ \/ _ |- _ => destruct H
         | H : False |- _ => destruct H
         | H : exists _, _ |- _ => destruct H
         | H : @Ok _ _ = Err _ |- _ => discriminate H
         | H : @Err _ _ = Ok _ |- _ => discriminate H
         end.

(** ** Deleting *)

Section Delete.
Variables (W : Type) (h : handler mdfE W) (w : W).
Variables (mounted_data_factory workspace : value).

Let o := run h (delete_mounted_data_factory mounted_data_factory workspace) w.

(** C5.  When the mounted data factory resolves, the function issues
    exactly one deletion call; if that call raises, the same exception
    leaves the function and no success message is printed; the success
    message is printed exactly when the call succeeded. *)
Theorem delete_one_call_success_only_after_it :
  (exists p, In (Ok p) (answers item_pair_answer (run_trace o))) ->
  count is_delete_call (run_trace o) = 1%nat
  /\ (forall e, In (Err e) (answers delete_answer (run_trace o)) ->
         run_result o = Err e /\ count is_print_success (run_trace o) = 0%nat)
  /\ (count is_print_success (run_trace o) = 1%nat
       <-> In (Ok tt) (answers delete_answer (run_trace o)))
  /\ (is_ok (run_result o) = true ->
       In (Ok tt) (answers delete_answer (run_trace o))).
Proof.
  subst o. unfold delete_mounted_data_factory, call, mbind. simpl.
  answer h. destruct r as [[name id] | e]; simpl.
  - intros _. answer h. destruct r as [[] | e]; simpl.
    + answer h. destruct r as [[] | e]; simpl;
        (split; [reflexivity |]); (split; [intros; absent |]);
        (split; [split; auto |]); auto.
    + split; [reflexivity |]. split.
      * intros e0 [H | []]. inversion H; subst. auto.
      * split; [split; intros; [discriminate | absent] | discriminate].
  - intros; absent.
Qed.
End Delete.

(** The deletion of DF1 when the service refuses it. *)
Lemma delete_one_call_witness :
  let o := run (Demo.service VNone VNone false)
               (delete_mounted_data_factory (VStr "DF1") (VStr "ws")) 0%nat in
  count is_delete_call (run_trace o) = 1%nat
  /\ run_result o = Err (Raised "FabricHTTPException")
  /\ count is_print_success (run_trace o) = 0%nat.
Proof.
  destruct (delete_one_call_success_only_after_it nat
              (Demo.service VNone VNone false) 0%nat (VStr "DF1") (VStr "ws"))
    as (H1 & H2 & _).
  - exists ("DF1", "id1"). simpl. left. reflexivity.
  - split; [exact H1 |].
    apply (H2 (Raised "FabricHTTPException")). simpl. left. reflexivity.
Defined.

(** ** Calling without a workspace *)

Lemma check_keywords_type_error unbound kws :
  match check_keywords unbound kws with
  | Ok _ => True
  | Err e => exists msg, e = TypeError msg
  end.
Proof.
  induction kws as [| [k v] kws IH]; simpl; [exact I |].
  destruct (negb (mem k unbound)); [eexists; reflexivity |].
  destruct (mem k (map fst kws)); [eexists; reflexivity | exact IH].
Qed.

(** C9.  [delete_mounted_data_factory] declares [workspace] without a
    default: a call that passes it neither by position nor by keyword
    raises [TypeError] while the arguments are bound, before any call to a
    collaborator; the same omission binds [None] in
    [list_mounted_data_factories] and in
    [get_mounted_data_factory_definition], whose bodies then run. *)
Theorem delete_requires_workspace :
  forall (W : Type) (h : handler mdfE W) (w : W) (c : call_args),
    (length (positional c) < 2)%nat ->
    assoc "workspace" (keywords c) = None ->
    (exists msg,
        run h (call_delete_mounted_data_factory c) w = (Err (TypeError msg), [], w))
    /\ In ("workspace", None) sig_delete_mounted_data_factory
    /\ In ("workspace", Some VNone) sig_list_mounted_data_factories
    /\ In ("workspace", Some VNone) sig_get_mounted_data_factory_definition
    /\ (forall cd ud,
          call_list_mounted_data_factories cd ud (mkCall [] [])
          = list_mounted_data_factories cd ud VNone)
    /\ (forall dec loads item,
          call_get_mounted_data_factory_definition dec loads (mkCall [item] [])
          = get_mounted_data_factory_definition dec loads item VNone).
Proof.
  intros W h w [pos kws] Hlen Hkw. simpl in *.
  split; [| simpl; intuition].
  unfold call_delete_mounted_data_factory, bind_params, mbind, lift. simpl.
  destruct pos as [| a [| b pos]]; simpl in *; [| | lia].
  - pose proof (check_keywords_type_error ["mounted_data_factory"; "workspace"] kws) as Hc.
    destruct (check_keywords _ kws) as [[] | e]; simpl.
    + rewrite Hkw.
      destruct (assoc "mounted_data_factory" kws); simpl; eexists; reflexivity.
    + destruct Hc as [msg ->]. eexists; reflexivity.
  - pose proof (check_keywords_type_error ["workspace"] kws) as Hc.
    destruct (check_keywords _ kws) as [[] | e]; simpl.
    + rewrite Hkw. simpl. eexists; reflexivity.
    + destruct Hc as [msg ->]. eexists; reflexivity.
Qed.

(** [delete_mounted_data_factory("DF1")] *)
Lemma delete_requires_workspace_witness :
  exists msg,
    run (Demo.service VNone VNone true)
        (call_delete_mounted_data_factory (mkCall [VStr "DF1"] [])) 0%nat
    = (Err (TypeError msg), [], 0%nat).
Proof.
  apply (delete_requires_workspace nat (Demo.service VNone VNone true) 0%nat
           (mkCall [VStr "DF1"] [])).
  - simpl. lia.
  - reflexivity.
Defined.

(** ** Fetching a definition *)

Lemma get_of_dict (p : value) (k : string) :
  is_dict p = true -> py_get p k = Ok (field p k).
Proof. destruct p; simpl; try discriminate. reflexivity. Qed.

Lemma next_payload_find (path : string) (ps : list value) :
  Forall (fun p => is_dict p = true) ps ->
  next_payload path ps =
  match find (has_path path) ps with
  | Some p => Ok (field p "payload")
  | None => Err StopIteration
  end.
Proof.
  induction 1 as [| p ps Hp _ IH]; simpl; [reflexivity |].
  rewrite (get_of_dict p "path" Hp). simpl.
  destruct p; try discriminate. simpl.
  destruct (py_eq_str _ path); [reflexivity | exact IH].
Qed.

Lemma next_payload_first (path : string) (before after : list value) (p : value) :
  Forall (fun q => is_dict q = true /\ has_path path q = false) before ->
  has_path path p = true ->
  next_payload path (before ++ p :: after) = Ok (field p "payload").
Proof.
  intros Hb Hp. induction Hb as [| q before [Hq Hn] _ IH]; simpl.
  - destruct p; try discriminate. simpl in *. rewrite Hp. reflexivity.
  - destruct q; try discriminate. simpl in *. rewrite Hn. exact IH.
Qed.

Section GetDefinition.
Variables (_decode_b64 : value -> result string)
          (json_loads : string -> result value).
Variables (W : Type) (h : handler mdfE W) (w : W).
Variables (mounted_data_factory workspace : value).

Let o := run h (get_mounted_data_factory_definition _decode_b64 json_loads
                  mounted_data_factory workspace) w.

(** What the function returns once the service has answered with a
    bundle whose parts are [parts]. *)
Lemma definition_of_parts (bundle definition : value) (parts : list value) :
  In (Ok bundle) (answers base_api_answer (run_trace o)) ->
  py_getitem bundle "definition" = Ok definition ->
  py_getitem definition "parts" = Ok (VList parts) ->
  run_result o =
  rbind (next_payload content_path parts) (fun payload =>
  rbind (_decode_b64 payload) json_loads).
Proof.
  subst o. unfold get_mounted_data_factory_definition, call, mbind, lift. simpl.
  answer h. destruct r as [[name id] | e]; simpl; [| intros; absent].
  answer h. destruct r as [item_id | e]; simpl; [| intros; absent].
  answer h. destruct r as [res | e]; simpl; [| intros; absent].
  intros [H | []] Hd Hp. inversion H; subst res.
  rewrite Hd. simpl. rewrite Hp. simpl. reflexivity.
Qed.

(** C1.  When the service returns a bundle whose parts are JSON objects:
    if a part has the path 'mountedDataFactory-content.json', the
    function returns what [json.loads] makes of the base64-decoded
    payload of that part (of the first one when there are several);
    if no part has that path, the function fails with [StopIteration],
    the exception of the exhausted [next], and with nothing else. *)
Theorem definition_is_decoded_payload_or_not_found :
  forall (bundle definition : value) (parts : list value),
    In (Ok bundle) (answers base_api_answer (run_trace o)) ->
    py_getitem bundle "definition" = Ok definition ->
    py_getitem definition "parts" = Ok (VList parts) ->
    Forall (fun p => is_dict p = true) parts ->
    match find (has_path content_path) parts with
    | Some p =>
        run_result o = rbind (_decode_b64 (field p "payload")) json_loads
    | None => run_result o = Err StopIteration
    end.
Proof.
  intros bundle definition parts Hb Hd Hp Hdict.
  rewrite (definition_of_parts bundle definition _ Hb Hd Hp).
  rewrite (next_payload_find content_path parts Hdict).
  destruct (find (has_path content_path) parts); reflexivity.
Qed.

(** C10.  When two or more parts have the path
    'mountedDataFactory-content.json', the function returns the decoded,
    parsed payload of the first of them in bundle order: the parts after
    it, matching or not, have no influence on the result. *)
Theorem first_matching_part_wins :
  forall (bundle definition : value) (before after : list value) (p later : value),
    In (Ok bundle) (answers base_api_answer (run_trace o)) ->
    py_getitem bundle "definition" = Ok definition ->
    py_getitem definition "parts" = Ok (VList (before ++ p :: after)) ->
    Forall (fun q => is_dict q = true /\ has_path content_path q = false) before ->
    has_path content_path p = true ->
    In later after -> has_path content_path later = true ->
    run_result o = rbind (_decode_b64 (field p "payload")) json_loads.
Proof.
  intros bundle definition before after p later Hb Hd Hp Hbefore Hpath _ _.
  rewrite (definition_of_parts bundle definition _ Hb Hd Hp).
  rewrite (next_payload_first content_path before after p Hbefore Hpath). reflexivity.
Qed.
End GetDefinition.

(** The bundle of [Demo.bundle] has the content part twice, with payloads
    "first" and "second", after a [.platform] part. *)
Lemma definition_is_decoded_payload_witness :
  run_result (run (Demo.service VNone Demo.bundle true)
                (get_mounted_data_factory_definition Demo.decode_b64 Demo.json_loads
                   (VStr "DF1") VNone) 0%nat)
  = Ok (VDict [("text", VStr "first")]).
Proof.
  pose proof (definition_is_decoded_payload_or_not_found
                Demo.decode_b64 Demo.json_loads nat
                (Demo.service VNone Demo.bundle true) 0%nat (VStr "DF1") VNone
                Demo.bundle) as H.
  simpl in H. specialize (H _ _ (or_introl eq_refl) eq_refl eq_refl).
  simpl in H. apply H. repeat constructor.
Defined.

Lemma first_matching_part_wins_witness :
  run_result (run (Demo.service VNone Demo.bundle true)
                (get_mounted_data_factory_definition Demo.decode_b64 Demo.json_loads
                   (VStr "DF1") VNone) 0%nat)
  = Ok (VDict [("text", VStr "first")]).
Proof.
  apply (first_matching_part_wins
           Demo.decode_b64 Demo.json_loads nat
           (Demo.service VNone Demo.bundle true) 0%nat (VStr "DF1") VNone
           Demo.bundle
           (VDict [("parts",
              VList [ VDict [("path", VStr ".platform"); ("payload", VStr "e30=")];
                      VDict [("path", VStr "mountedDataFactory-content.json");
                             ("payload", VStr "first")];
                      VDict [("path", VStr "mountedDataFactory-content.json");
                             ("payload", VStr "second")] ])])
           [VDict [("path", VStr ".platform"); ("payload", VStr "e30=")]]
           [VDict [("path", VStr "mountedDataFactory-content.json");
                   ("payload", VStr "second")]]
           (VDict [("path", VStr "mountedDataFactory-content.json");
                   ("payload", VStr "first")])
           (VDict [("path", VStr "mountedDataFactory-content.json");
                   ("payload", VStr "second")])).
  - simpl. left. reflexivity.
  - reflexivity.
  - reflexivity.
  - repeat constructor.
  - reflexivity.
  - simpl. left. reflexivity.
  - reflexivity.
Defined.

(** A bundle without the content part. *)
Example definition_without_content_part :
  run_result (run (Demo.service VNone Demo.bundle_without true)
                (get_mounted_data_factory_definition Demo.decode_b64 Demo.json_loads
                   (VStr "DF1") VNone) 0%nat)
  = Err StopIteration.
Proof. reflexivity. Qed.

(** The content part has no payload: [_decode_b64(None)]. *)
Example definition_without_payload :
  run_result (run (Demo.service VNone
                     (VDict [("definition",
                        VDict [("parts",
                          VList [VDict [("path",
                                   VStr "mountedDataFactory-content.json")]])])])
                     true)
                (get_mounted_data_factory_definition Demo.decode_b64 Demo.json_loads
                   (VStr "DF1") VNone) 0%nat)
  = rbind (Demo.decode_b64 VNone) Demo.json_loads.
Proof. reflexivity. Qed.

(** A part that is not an object after the content part is never looked at;
    before it, it ends the search with [AttributeError]. *)
Example definition_lazy_search :
  next_payload content_path
    [VDict [("path", VStr content_path); ("payload", VStr "p")]; VStr "junk"]
  = Ok (VStr "p")
  /\ next_payload content_path
       [VStr "junk"; VDict [("path", VStr content_path); ("payload", VStr "p")]]
     = Err (AttributeError "get").
Proof. split; reflexivity. Qed.

(** ** Listing *)

Lemma realign_names (rws : list (list value)) :
  three_cells rws -> realign names (mkDataFrame names rws) = rws.
Proof.
  unfold realign. simpl.
  induction 1 as [| row rws Hrow _ IH]; simpl; [reflexivity |].
  rewrite IH. f_equal.
  destruct row as [| a [| b [| c [| d row]]]]; try discriminate. reflexivity.
Qed.

Lemma add_record_row (rws : list (list value)) (v : value) :
  is_dict v = true -> three_cells rws ->
  add_record (mkDataFrame names rws) v
  = Ok (mkDataFrame names (rws ++ [row_of v])).
Proof.
  intros Hv Hr. unfold add_record, new_data.
  rewrite !(get_of_dict v _ Hv). simpl.
  unfold pd_concat. simpl labels.
  change (union_columns names _) with names.
  rewrite (realign_names rws Hr). reflexivity.
Qed.

Lemma three_cells_app (rws : list (list value)) (vs : list value) :
  three_cells rws -> three_cells (rws ++ map row_of vs).
Proof.
  intro H. apply Forall_app. split; [exact H |].
  apply Forall_forall. intros row Hin. apply in_map_iff in Hin.
  destruct Hin as [v [<- _]]. reflexivity.
Qed.

Lemma add_records (vs : list value) :
  Forall (fun v => is_dict v = true) vs ->
  forall rws, three_cells rws ->
  for_each vs (mkDataFrame names rws) add_record
  = Ok (mkDataFrame names (rws ++ map row_of vs)).
Proof.
  induction 1 as [| v vs Hv _ IH]; intros rws Hr; simpl.
  - rewrite app_nil_r. reflexivity.
  - rewrite (add_record_row rws v Hv Hr). simpl.
    rewrite IH by (apply (three_cells_app rws [v] Hr)).
    rewrite <- app_assoc. reflexivity.
Qed.

Lemma add_pages (pages : list value) (recss : list (list value)) :
  Forall2 (fun page rs => page_records page = Ok rs) pages recss ->
  Forall (fun v => is_dict v = true) (concat recss) ->
  forall rws, three_cells rws ->
  for_each pages (mkDataFrame names rws) add_page
  = Ok (mkDataFrame names (rws ++ map row_of (concat recss))).
Proof.
  induction 1 as [| page rs pages recss Hpage _ IH]; intros Hd rws Hr; simpl.
  - rewrite app_nil_r. reflexivity.
  - simpl in Hd. apply Forall_app in Hd. destruct Hd as [Hrs Hrest].
    unfold add_page at 1. unfold page_records in Hpage.
    destruct (py_get_default page "value" (VList [])) as [value0 | e];
      simpl in *; [| discriminate].
    rewrite Hpage. simpl.
    rewrite (add_records rs Hrs rws Hr). simpl.
    rewrite (IH Hrest _ (three_cells_app rws rs Hr)).
    rewrite map_app, app_assoc. reflexivity.
Qed.

Lemma records_are_dicts (vs : list value) :
  Forall (fun v => is_record v = true) vs ->
  Forall (fun v => is_dict v = true) vs.
Proof.
  apply Forall_impl. intros v H. unfold is_record in H.
  apply andb_true_iff in H. exact (proj1 H).
Qed.

Section Listing.
Variables (_create_dataframe : list (string * string) -> DataFrame)
          (_update_dataframe_datatypes :
             DataFrame -> list (string * string) -> result DataFrame)
          (astype : value -> value).
Variables (W : Type) (h : handler mdfE W) (w : W) (workspace : value).

(** What is assumed of the two frame helpers: the first makes the empty
    frame of the columns it is given; the second casts cell by cell. *)
Hypothesis create_empty :
  _create_dataframe columns = mkDataFrame names [].
Hypothesis update_cellwise :
  forall rws,
    _update_dataframe_datatypes (mkDataFrame names rws) columns
    = Ok (mkDataFrame names (map (map astype) rws)).

Let o := run h (list_mounted_data_factories _create_dataframe
                  _update_dataframe_datatypes workspace) w.

(** C4.  When the service answers the listing request with pages that
    hold N item records in all, the function returns a frame with the
    three columns 'Mounted Data Factory Name', 'Mounted Data Factory Id'
    and 'Description' and exactly N rows: the i-th row is the row of the
    i-th record, counting through the pages in response order and
    through each page in its own order, so no record is left out and
    none gives two rows. *)
Theorem listing_one_row_per_record_in_order :
  forall (pages : list value) (recss : list (list value)),
    In (Ok (VList pages)) (answers base_api_answer (run_trace o)) ->
    Forall2 (fun page rs => page_records page = Ok rs) pages recss ->
    Forall (fun v => is_record v = true) (concat recss) ->
    exists df,
      run_result o = Ok df
      /\ labels df = [ "Mounted Data Factory Name"; "Mounted Data Factory Id";
                       "Description" ]
      /\ rows df = map (fun v => map astype (row_of v)) (concat recss)
      /\ length (rows df) = length (concat recss)
      /\ (forall i, nth_error (rows df) i
                   = option_map (fun v => map astype (row_of v))
                                (nth_error (concat recss) i)).
Proof.
  intros pages recss Hin Hp Hr.
  exists (mkDataFrame names (map (fun v => map astype (row_of v)) (concat recss))).
  split; [| split; [reflexivity | split; [reflexivity | split]]].
  - revert Hin. subst o.
    unfold list_mounted_data_factories, call, mbind, lift. simpl.
    answer h. destruct r as [[name id] | e]; simpl; [| intros; absent].
    answer h. destruct r as [res | e]; simpl; [| intros; absent].
    intros [H | []]. inversion H; subst res. simpl.
    rewrite create_empty.
    rewrite (add_pages pages recss Hp (records_are_dicts _ Hr) [] (Forall_nil _)). simpl.
    rewrite update_cellwise. simpl. rewrite map_map. reflexivity.
  - simpl. rewrite length_map. reflexivity.
  - intro i. simpl. apply nth_error_map.
Qed.
End Listing.

(** The workspace with DF1/id1 and DF2/id2. *)
Lemma listing_one_row_per_record_witness :
  exists df,
    run_result (run (Demo.service Demo.two_items VNone true)
                  (list_mounted_data_factories Demo.create_dataframe
                     Demo.update_dataframe_datatypes VNone) 0%nat) = Ok df
    /\ labels df = [ "Mounted Data Factory Name"; "Mounted Data Factory Id";
                     "Description" ]
    /\ rows df = [ [VStr "DF1"; VStr "id1"; VStr "None"];
                   [VStr "DF2"; VStr "id2"; VStr "None"] ].
Proof.
  destruct (listing_one_row_per_record_in_order
              Demo.create_dataframe Demo.update_dataframe_datatypes Demo.astype_str
              nat (Demo.service Demo.two_items VNone true) 0%nat VNone
              eq_refl (fun rws => eq_refl)
              [ VDict [ ("value",
                  VList [ VDict [("id", VStr "id1"); ("displayName", VStr "DF1")];
                          VDict [("id", VStr "id2"); ("displayName", VStr "DF2")] ]) ] ]
              [ [ VDict [("id", VStr "id1"); ("displayName", VStr "DF1")];
                  VDict [("id", VStr "id2"); ("displayName", VStr "DF2")] ] ])
    as (df & H1 & H2 & H3 & _).
  - simpl. left. reflexivity.
  - repeat constructor.
  - repeat constructor.
  - exists df. split; [exact H1 |]. split; [exact H2 | exact H3].
Defined.


End MountedDataFactoriesSpec.

(** * Properties of [UpdateDirectLakeModelLakehouseConnection.py] *)

Module UpdateDirectLakeSpec.
Import UpdateDirectLake DlTrace.

(** Follow the function through every answer the handler can give. *)
Ltac crank h :=
  repeat (simpl;
    match goal with
    | |- context [h ?X ?e ?w] =>
        let r := fresh "r" in
        let w' := fresh "w" in
        destruct (h X e w) as [r w']; try destruct r
    | |- context [df_filter_eq ?d ?c ?s] =>
        let f := fresh "f" in
        let Hf := fresh "Hf" in
        destruct (df_filter_eq d c s) as [f | ?] eqn:Hf
    | |- context [Nat.eqb (len ?f) 0] =>
        let Hl := fresh "Hl" in
        destruct (Nat.eqb (len f) 0) eqn:Hl
    | |- context [run h (if ?b then _ else _) _] => destruct b
    end).

Ltac absent :=
  repeat match goal with
         | H : In _ _ |- _ => simpl in H
         | H : _ \/ _ |- _ => destruct H
         | H : False |- _ => destruct H
         | H : @Ok _ _ = Err _ |- _ => discriminate H
         | H : @Err _ _ = Ok _ |- _ => discriminate H
         end.

(** Name the frame a trace holds as the answer on the partitions. *)
Ltac the_partitions :=
  match goal with
  | H : @Ok DataFrame ?d = Ok ?r |- _ => inversion H; subst; clear H
  end.

Ltac inj :=
  repeat match goal with
         | H : Ok _ = Ok _ |- _ => inversion H; subst; clear H
         | H : Some _ = Some _ |- _ => inversion H; subst; clear H
         | H : (_, _) = (_, _) |- _ => inversion H; subst; clear H
         | H : Some _ = None |- _ => discriminate H
         | H : None = Some _ |- _ => discriminate H
         | H : @Ok _ _ = Err _ |- _ => discriminate H
         | H : @Err _ _ = Ok _ |- _ => discriminate H
         | H : Err _ = Err _ |- _ => inversion H; subst; clear H
         end.

Lemma empty_frame_len (f : DataFrame) : rows f = [] -> Nat.eqb (len f) 0 = true.
Proof. unfold len. intros ->. reflexivity. Qed.

Section Remap.
Variables (W : Type) (h : handler dlE W) (w : W).
Variables (dataset : string) (workspace lakehouse lakehouse_workspace : option string).

Let o := run h (update_direct_lake_model_lakehouse_connection
                  dataset workspace lakehouse lakehouse_workspace) w.

(** C3.  When the partitions of the model, as the service lists them,
    have no row in 'DirectLake' mode, the trace of the function holds no
    call on the connection to the model (it is neither opened, nor read,
    nor written, nor closed), the function prints that the model is not
    in Direct Lake and returns. *)
Theorem not_direct_lake_no_mutation :
  forall (dfP f : DataFrame),
    In (Ok dfP) (answers partitions_answer (run_trace o)) ->
    df_filter_eq dfP "Mode" "DirectLake" = Ok f ->
    rows f = [] ->
    count is_connection_event (run_trace o) = 0%nat
    /\ In (msg_not_direct_lake dataset) (answers printed (run_trace o))
    /\ run_result o = Ok tt.
Proof.
  intros dfP f Hin Hf Hrows. revert Hin. subst o.
  unfold update_direct_lake_model_lakehouse_connection, with_as, try_except,
    print, call, mbind, lift.
  destruct workspace as [ws |], lakehouse as [lh |];
    crank h; intro Hin; absent; try the_partitions;
    try congruence;
    try (match goal with
         | H : Nat.eqb (len ?g) 0 = false |- _ =>
             assert (rows g = []) by congruence;
             rewrite (empty_frame_len g) in H by assumption;
             discriminate H
         end);
    simpl; auto 6.
Qed.
(** What the trace of the function says about writes, for every
    collaborator: at most one write; a write puts the shared expression
    into the expression looked up under 'DatabaseQuery' and is followed
    by the exit of a block that ended normally; a failed write or a
    failed lookup prints the error message; an exception of the exit
    leaves the function. *)
Lemma writes_of_the_remap :
  (length (answers write_of (run_trace o)) <= 1)%nat
  /\ (forall x v a, In (x, v, a) (answers write_of (run_trace o)) ->
        In (Ok v) (answers shared_expression_answer (run_trace o))
        /\ In ("DatabaseQuery", Ok x) (answers lookup_of (run_trace o))
        /\ exists t r, last_exit (run_trace o) = Some (t, None, r))
  /\ (forall x v e, In (x, v, Err e) (answers write_of (run_trace o)) ->
        In (msg_error dataset) (answers printed (run_trace o)))
  /\ (forall name e, In (name, Err e) (answers lookup_of (run_trace o)) ->
        answers write_of (run_trace o) = []
        /\ In (msg_error dataset) (answers printed (run_trace o)))
  /\ (forall shEx x,
        In (Ok shEx) (answers shared_expression_answer (run_trace o)) ->
        In ("DatabaseQuery", Ok x) (answers lookup_of (run_trace o)) ->
        exists a, answers write_of (run_trace o) = [(x, shEx, a)])
  /\ (forall t exc e, last_exit (run_trace o) = Some (t, exc, Err e) ->
        run_result o = Err e).
Proof.
  subst o.
  unfold update_direct_lake_model_lakehouse_connection, with_as, try_except,
    print, call, mbind, lift.
  destruct workspace as [ws |], lakehouse as [lh |];
    crank h;
    unfold last_exit, run_trace, run_result; simpl;
    repeat split; intros; absent; inj;
    simpl; eauto 12.
Qed.

(** C7.  On every path through the function the connection to the
    model is opened at most once, the model is read and written only
    while the connection is open and only through it, and a connection
    that was opened is closed by the exit of the [with] statement, which
    is the last call the function makes.  In particular, when setting
    the expression raises, the exception is caught, the error message is
    printed and the exit runs as after a normal end of the block. *)
Theorem connection_released_on_every_path :
  well_scoped (run_trace o) = true
  /\ (forall t, In (Ok t) (answers enter_answer (run_trace o)) ->
        exists exc a, last_exit (run_trace o) = Some (t, exc, a))
  /\ (forall x v e, In (x, v, Err e) (answers write_of (run_trace o)) ->
        In (msg_error dataset) (answers printed (run_trace o))
        /\ exists t a, last_exit (run_trace o) = Some (t, None, a)).
Proof.
  subst o.
  unfold update_direct_lake_model_lakehouse_connection, with_as, try_except,
    print, call, mbind, lift.
  destruct workspace as [ws |], lakehouse as [lh |];
    crank h;
    (split;
     [ unfold well_scoped, run_trace; simpl;
       repeat (progress (rewrite ?Nat.eqb_refl, ?String.eqb_refl; simpl));
       reflexivity
     | split;
       [ intros t Hin; absent;
         try (match goal with H : Ok _ = Ok _ |- _ => inversion H; subst end);
         do 2 eexists; reflexivity
       | intros x v e' Hin; absent;
         try (match goal with
              | H : (_, _, _) = (_, _, _) |- _ => inversion H; subst
              end);
         (split; [simpl; auto 10 | do 2 eexists; reflexivity]) ] ]).
Qed.
End Remap.

(** An import model: nothing touches the connection. *)
Lemma not_direct_lake_no_mutation_witness :
  let o := run (Demo.fabric "Import" true true)
               (update_direct_lake_model_lakehouse_connection "Sales" None None None)
               0%nat in
  count is_connection_event (run_trace o) = 0%nat
  /\ In (msg_not_direct_lake "Sales") (answers printed (run_trace o))
  /\ run_result o = Ok tt.
Proof.
  apply (not_direct_lake_no_mutation nat (Demo.fabric "Import" true true) 0%nat
           "Sales" None None None
           (Demo.partitions "Import") (mkDataFrame ["Table Name"; "Mode"] [])).
  - simpl. auto.
  - reflexivity.
  - reflexivity.
Defined.

(** The write is refused: the block still ends with its exit. *)
Lemma connection_released_witness :
  let o := run (Demo.fabric "DirectLake" false true)
               (update_direct_lake_model_lakehouse_connection
                  "Sales" (Some "ws") (Some "Lake") None) 0%nat in
  well_scoped (run_trace o) = true
  /\ In (msg_error "Sales") (answers printed (run_trace o))
  /\ exists t a, last_exit (run_trace o) = Some (t, None, a).
Proof.
  destruct (connection_released_on_every_path nat
              (Demo.fabric "DirectLake" false true) 0%nat
              "Sales" (Some "ws") (Some "Lake") None) as (H1 & _ & H3).
  split; [exact H1 |].
  apply (H3 "DatabaseQuery" (VStr "let database = Sql.Database() in database")
            (Raised "InvalidOperation")).
  simpl. auto.
Defined.


(** ** On the connection provider *)

Section RemapOnProvider.
Import Provider.
Variables (W : Type) (h : handler dlE W) (w : W) (t0 : tom_state).
Variables (dataset : string) (workspace lakehouse lakehouse_workspace : option string).

(** No connection is open when the function is called. *)
Hypothesis closed : working t0 = None.

Let o := run (provider h)
             (update_direct_lake_model_lakehouse_connection
                dataset workspace lakehouse lakehouse_workspace) (w, t0).

(** C2.  When the partitions of the model have a row in 'DirectLake'
    mode and the shared expression of the lakehouse was obtained:
    the function makes at most one property write; if the model has a
    'DatabaseQuery' expression it makes exactly one, of the shared
    expression into it, and then leaves the block normally, which
    commits; when the commit is accepted the published model holds the
    new expression.  If the write fails (the model has no
    'DatabaseQuery' expression) the error message is printed, and if
    the commit fails its exception leaves the function; in both cases
    the published model is what it was before the call. *)
Theorem direct_lake_one_write_committed_or_model_unchanged :
  forall (dfP f : DataFrame) (shEx : value),
    In (Ok dfP) (answers partitions_answer (run_trace o)) ->
    df_filter_eq dfP "Mode" "DirectLake" = Ok f ->
    rows f <> [] ->
    In (Ok shEx) (answers shared_expression_answer (run_trace o)) ->
    (length (answers write_of (run_trace o)) <= 1)%nat
    /\ (has "DatabaseQuery" (published t0) = true ->
          answers write_of (run_trace o) = [("DatabaseQuery", shEx, Ok tt)]
          /\ exists t,
               last_exit (run_trace o)
               = Some (t, None,
                       if save_ok t0 then Ok false
                       else Err (Raised "SaveChanges")))
    /\ (has "DatabaseQuery" (published t0) = true -> save_ok t0 = true ->
          published (snd (run_world o))
          = set "DatabaseQuery" shEx (published t0)
          /\ run_result o = Ok tt)
    /\ (has "DatabaseQuery" (published t0) = false ->
          answers write_of (run_trace o) = []
          /\ In (msg_error dataset) (answers printed (run_trace o))
          /\ published (snd (run_world o)) = published t0)
    /\ (save_ok t0 = false ->
          run_result o = Err (Raised "SaveChanges")
          /\ published (snd (run_world o)) = published t0).
Proof.
  intros dfP f shEx Hin Hf Hrows Hsh. revert Hin Hsh. subst o.
  destruct t0 as [pub wk ok]. simpl in closed. subst wk.
  unfold update_direct_lake_model_lakehouse_connection, with_as, try_except,
    print, call, mbind, lift, provider.
  destruct ok;
    destruct workspace as [ws |], lakehouse as [lh |];
    repeat (crank h; simpl;
            try match goal with
                | |- context [has ?n ?m] =>
                    let Hhas := fresh "Hhas" in
                    destruct (has n m) eqn:Hhas
                end);
    unfold last_exit, run_trace, run_result, run_world; simpl;
    intros Hin Hsh; absent; inj;
    repeat split; intros; inj; try discriminate;
    simpl; eauto.
Qed.
End RemapOnProvider.

(** The model of [Demo.model], remapped to the lakehouse "Lake". *)
Lemma direct_lake_one_write_witness :
  let o := run (Provider.provider (Demo.fabric "DirectLake" true true))
               (update_direct_lake_model_lakehouse_connection
                  "Sales" (Some "ws") (Some "Lake") None) (0%nat, Demo.model) in
  answers write_of (run_trace o)
  = [("DatabaseQuery", VStr "let database = Sql.Database() in database", Ok tt)]
  /\ Provider.published (snd (run_world o))
     = [("DatabaseQuery", VStr "let database = Sql.Database() in database")]
  /\ run_result o = Ok tt.
Proof.
  destruct (direct_lake_one_write_committed_or_model_unchanged nat
              (Demo.fabric "DirectLake" true true) 0%nat Demo.model
              "Sales" (Some "ws") (Some "Lake") None eq_refl
              (Demo.partitions "DirectLake") (Demo.partitions "DirectLake")
              (VStr "let database = Sql.Database() in database"))
    as (_ & H2 & H3 & _).
  - simpl. auto.
  - reflexivity.
  - discriminate.
  - simpl. auto.
  - destruct (H2 eq_refl) as [Hw _]. destruct (H3 eq_refl eq_refl) as [Hp Hr].
    split; [exact Hw |]. split; [exact Hp | exact Hr].
Defined.

(** The model has no 'DatabaseQuery' expression. *)
Lemma write_fails_model_unchanged_example :
  let t0 := {| Provider.published := [("Other", VStr "x")]; Provider.working := None; Provider.save_ok := true |} in
  let o := run (Provider.provider (Demo.fabric "DirectLake" true true))
               (update_direct_lake_model_lakehouse_connection
                  "Sales" (Some "ws") (Some "Lake") None) (0%nat, t0) in
  Provider.published (snd (run_world o)) = [("Other", VStr "x")]
  /\ answers printed (run_trace o) = [msg_error "Sales"]
  /\ run_result o = Ok tt.
Proof. repeat split. Qed.

(** The service refuses the save: the message of success is already out. *)
Lemma commit_fails_model_unchanged_example :
  let t0 := {| Provider.published := [("DatabaseQuery", VStr "old")]; Provider.working := None;
               Provider.save_ok := false |} in
  let o := run (Provider.provider (Demo.fabric "DirectLake" true true))
               (update_direct_lake_model_lakehouse_connection
                  "Sales" (Some "ws") (Some "Lake") None) (0%nat, t0) in
  Provider.published (snd (run_world o)) = [("DatabaseQuery", VStr "old")]
  /\ answers printed (run_trace o) = [msg_updated "Sales" "Lake" "ws"]
  /\ run_result o = Err (Raised "SaveChanges").
Proof. repeat split. Qed.
End UpdateDirectLakeSpec.

(** * Resolution before requests *)

Module ResolutionSpec.
Import MountedDataFactories MdfTrace MdfShape MountedDataFactoriesSpec.

(** C8 as it is claimed fails on a deletion: the deletion of DF1 succeeds,
    its request goes to the service, and no workspace pair was resolved. *)
Lemma delete_resolves_no_workspace_pair :
  let o := run (Demo.service VNone VNone true)
               (delete_mounted_data_factory (VStr "DF1") (VStr "ws")) 0%nat in
  run_result o = Ok tt
  /\ count is_request (run_trace o) = 1%nat
  /\ workspace_pair_resolved (run_trace o) = false.
Proof. repeat split. Qed.

(** C8, amended.  The listing and the definition fetch resolve the
    workspace pair exactly once, with the workspace argument as it was
    given (so [None] when omitted), as their first call and before any
    request; the definition fetch then resolves the id of the item.  The
    remap first asks for the ambient workspace id and its name when the
    workspace is omitted, or for the id of the workspace it was given, and
    resolves no workspace afterwards; a lakehouse given by name is not
    resolved at all.  The deletion resolves no workspace
    pair: its first call resolves the pair of the item, and the workspace
    argument goes as it is to that resolver and to the deletion call. *)
Theorem workspace_resolution_by_operation :
  (forall (W : Type) (h : handler mdfE W) (w : W) cd ud workspace,
      let tr := run_trace (run h (list_mounted_data_factories cd ud workspace) w) in
      workspace_pair_resolved tr = true
      /\ exists r tr', tr = Entry (ResolveWorkspaceNameAndId workspace) r :: tr')
  /\ (forall (W : Type) (h : handler mdfE W) (w : W) dec loads item workspace,
      let tr := run_trace (run h (get_mounted_data_factory_definition
                                    dec loads item workspace) w) in
      workspace_pair_resolved tr = true
      /\ exists r tr',
          tr = Entry (ResolveWorkspaceNameAndId workspace) r :: tr'
          /\ match r with
             | Ok _ =>
                 exists r2 tr'',
                   tr' = Entry (ResolveItemId item "MountedDataFactory" workspace) r2
                         :: tr''
             | Err _ => tr' = []
             end)
  /\ (forall (W : Type) (h : handler mdfE W) (w : W) item workspace,
      let tr := run_trace (run h (delete_mounted_data_factory item workspace) w) in
      count is_workspace_resolution tr = 0%nat
      /\ exists r tr',
          tr = Entry (ResolveItemNameAndId item "MountedDataFactory" workspace) r :: tr'
          /\ match r with
             | Ok p =>
                 exists r2 tr'',
                   tr' = Entry (FabricDeleteItem (snd p) "MountedDataFactory" workspace) r2
                         :: tr''
             | Err _ => tr' = []
             end)
  /\ (forall (W : Type) (h : handler UpdateDirectLake.dlE W) (w : W)
             dataset workspace lakehouse lakehouse_workspace,
      let tr := run_trace (run h (UpdateDirectLake.update_direct_lake_model_lakehouse_connection
                                    dataset workspace lakehouse lakehouse_workspace) w) in
      match workspace with
      | None =>
          exists r tr',
            tr = Entry UpdateDirectLake.FabricGetWorkspaceId r :: tr'
            /\ match r with
               | Ok workspace_id =>
                   exists r2 tr'',
                     tr' = Entry (UpdateDirectLake.FabricResolveWorkspaceName workspace_id) r2
                           :: tr''
                     /\ count DlTrace.is_workspace_resolution tr'' = 0%nat
               | Err _ => tr' = []
               end
      | Some ws =>
          exists r tr',
            tr = Entry (UpdateDirectLake.FabricResolveWorkspaceId ws) r :: tr'
            /\ count DlTrace.is_workspace_resolution tr' = 0%nat
      end
      /\ match lakehouse with
         | None => True
         | Some _ => count DlTrace.is_lakehouse_resolution tr = 0%nat
         end).
Proof.
  split; [| split; [| split]].
  - intros W h w cd ud workspace.
    unfold list_mounted_data_factories, call, mbind, lift. simpl.
    answer h. destruct r as [[name id] | e]; simpl;
      [answer h; destruct r; simpl |];
      (split; [reflexivity | do 2 eexists; reflexivity]).
  - intros W h w dec loads item workspace.
    unfold get_mounted_data_factory_definition, call, mbind, lift. simpl.
    answer h. destruct r as [[name id] | e]; simpl;
      [answer h; destruct r; simpl; [answer h; destruct r; simpl |] |];
      (split; [reflexivity |]);
      do 2 eexists; (split; [reflexivity |]); simpl;
      try reflexivity; do 2 eexists; reflexivity.
  - intros W h w item workspace.
    unfold delete_mounted_data_factory, call, mbind. simpl.
    answer h. destruct r as [[name id] | e]; simpl;
      [answer h; destruct r as [[] | e]; simpl; [answer h; destruct r; simpl |] |];
      (split; [reflexivity |]);
      do 2 eexists; (split; [reflexivity |]); simpl;
      try reflexivity; do 2 eexists; reflexivity.
  - intros W h w dataset workspace lakehouse lakehouse_workspace.
    unfold UpdateDirectLake.update_direct_lake_model_lakehouse_connection,
      UpdateDirectLake.with_as, try_except, UpdateDirectLake.print, call, mbind, lift.
    destruct workspace as [ws |], lakehouse as [lh |];
      UpdateDirectLakeSpec.crank h;
      unfold run_trace; simpl;
      (split; [| first [exact I | reflexivity]]);
      do 2 eexists; (split; [reflexivity |]); simpl;
      try reflexivity; do 2 eexists; (split; [reflexivity |]); reflexivity.
Qed.
End ResolutionSpec.

(** * More properties of [_mounted_data_factories.py] *)

Module MountedDataFactoriesMore.
Import MountedDataFactories MdfTrace MdfShape MdfCalls MountedDataFactoriesSpec.

Ltac inj :=
  repeat match goal with
         | H : Ok _ = Ok _ |- _ => inversion H; subst; clear H
         | H : Err _ = Err _ |- _ => inversion H; subst; clear H
         | H : (_, _) = (_, _) |- _ => inversion H; subst; clear H
         | H : @Ok _ _ = Err _ |- _ => discriminate H
         | H : @Err _ _ = Ok _ |- _ => discriminate H
         end.

(** ** Requests *)

(** X1.  The listing sends at most one request; once the workspace has
    resolved to an id, the request is the paginated one for
    [/v1/workspaces/<id>/mountedDataFactories]; when the resolver raises,
    no request is sent; an exception of the resolver or of the request
    leaves the function as it is. *)
Theorem listing_request_after_resolution :
  forall (W : Type) (h : handler mdfE W) (w : W) cd ud (workspace : value),
    let o := run h (list_mounted_data_factories cd ud workspace) w in
    (length (answers request_of (run_trace o)) <= 1)%nat
    /\ (forall name id,
          In (Ok (name, id)) (answers workspace_pair_answer (run_trace o)) ->
          answers request_of (run_trace o)
          = [ (("/v1/workspaces/" ++ id ++ "/mountedDataFactories")%string,
               {| method := None; uses_pagination := Some true;
                  lro_return_json := None; status_codes := None |}) ])
    /\ (forall e,
          In (Err e) (answers workspace_pair_answer (run_trace o)) ->
          answers request_of (run_trace o) = [] /\ run_result o = Err e)
    /\ (forall e,
          In (Err e) (answers base_api_answer (run_trace o)) ->
          run_result o = Err e).
Proof.
  intros W h w cd ud workspace.
  unfold list_mounted_data_factories, call, mbind, lift. simpl.
  answer h. destruct r as [[name id] | e]; simpl;
    [answer h; destruct r as [res | e]; simpl |];
    repeat split; intros; absent; inj; auto.
Qed.

Lemma listing_request_witness :
  answers request_of
    (run_trace (run (Demo.service Demo.two_items VNone true)
                  (list_mounted_data_factories Demo.create_dataframe
                     Demo.update_dataframe_datatypes VNone) 0%nat))
  = [ ("/v1/workspaces/wid/mountedDataFactories",
       {| method := None; uses_pagination := Some true;
          lro_return_json := None; status_codes := None |}) ].
Proof.
  destruct (listing_request_after_resolution nat
              (Demo.service Demo.two_items VNone true) 0%nat
              Demo.create_dataframe Demo.update_dataframe_datatypes VNone)
    as (_ & H & _).
  apply (H "ws" "wid"). simpl. left. reflexivity.
Defined.

(** X2.  The definition fetch sends at most one request, and only after
    the workspace and the item have both resolved: it is the POST of
    [/v1/workspaces/<workspace id>/mountedDataFactories/<item id>/getDefinition];
    when either resolver raises, no request is sent and the exception
    leaves the function; so does an exception of the request. *)
Theorem definition_request_after_both_resolutions :
  forall (W : Type) (h : handler mdfE W) (w : W) dec loads (item workspace : value),
    let o := run h (get_mounted_data_factory_definition dec loads item workspace) w in
    (length (answers request_of (run_trace o)) <= 1)%nat
    /\ (forall name id item_id,
          In (Ok (name, id)) (answers workspace_pair_answer (run_trace o)) ->
          In (Ok item_id) (answers item_id_answer (run_trace o)) ->
          answers request_of (run_trace o)
          = [ (("/v1/workspaces/" ++ id ++ "/mountedDataFactories/" ++ item_id
                  ++ "/getDefinition")%string,
               {| method := Some "post"; uses_pagination := None;
                  lro_return_json := Some true; status_codes := Some VNone |}) ])
    /\ (forall e,
          In (Err e) (answers workspace_pair_answer (run_trace o))
          \/ In (Err e) (answers item_id_answer (run_trace o)) ->
          answers request_of (run_trace o) = [] /\ run_result o = Err e)
    /\ (forall e,
          In (Err e) (answers base_api_answer (run_trace o)) ->
          run_result o = Err e).
Proof.
  intros W h w dec loads item workspace.
  unfold get_mounted_data_factory_definition, call, mbind, lift. simpl.
  answer h. destruct r as [[name id] | e]; simpl;
    [answer h; destruct r as [item_id | e]; simpl;
     [answer h; destruct r as [res | e]; simpl |] |];
    repeat split; intros; absent; inj; auto.
Qed.

Lemma definition_request_witness :
  answers request_of
    (run_trace (run (Demo.service VNone Demo.bundle true)
                  (get_mounted_data_factory_definition Demo.decode_b64 Demo.json_loads
                     (VStr "DF1") VNone) 0%nat))
  = [ ("/v1/workspaces/wid/mountedDataFactories/id1/getDefinition",
       {| method := Some "post"; uses_pagination := None;
          lro_return_json := Some true; status_codes := Some VNone |}) ].
Proof.
  destruct (definition_request_after_both_resolutions nat
              (Demo.service VNone Demo.bundle true) 0%nat
              Demo.decode_b64 Demo.json_loads (VStr "DF1") VNone)
    as (_ & H & _).
  apply (H "ws" "wid" "id1"); simpl; left; reflexivity.
Defined.

(** ** Malformed listings *)

Lemma for_each_app {A S : Type} (l1 l2 : list A) (body : S -> A -> result S) :
  forall s,
    for_each (l1 ++ l2) s body
    = rbind (for_each l1 s body) (fun s' => for_each l2 s' body).
Proof.
  induction l1 as [| a l1 IH]; intro s; simpl; [reflexivity |].
  destruct (body s a) as [s' | e]; simpl; [apply IH | reflexivity].
Qed.

Lemma add_records_ok (vs : list value) :
  Forall (fun v => is_dict v = true) vs ->
  forall df, exists df', for_each vs df add_record = Ok df'.
Proof.
  induction 1 as [| v vs Hv _ IH]; intro df; simpl; [eauto |].
  unfold add_record at 1, new_data. rewrite !(get_of_dict v _ Hv). simpl.
  apply IH.
Qed.

Lemma add_pages_ok (pages : list value) (recss : list (list value)) :
  Forall2 (fun page rs => page_records page = Ok rs) pages recss ->
  Forall (fun v => is_dict v = true) (concat recss) ->
  forall df, exists df', for_each pages df add_page = Ok df'.
Proof.
  induction 1 as [| page rs pages recss Hpage _ IH]; intros Hd df; simpl; [eauto |].
  simpl in Hd. apply Forall_app in Hd. destruct Hd as [Hrs Hrest].
  unfold add_page at 1. unfold page_records in Hpage.
  destruct (py_get_default page "value" (VList [])) as [value0 | e];
    simpl in *; [| discriminate].
  rewrite Hpage. simpl.
  destruct (add_records_ok rs Hrs df) as [df' ->]. simpl.
  apply IH. exact Hrest.
Qed.

Lemma add_page_of_bad_page (df : DataFrame) (page : value) (e : exn) :
  page_records page = Err e -> add_page df page = Err e.
Proof.
  unfold page_records, add_page.
  destruct (py_get_default page "value" (VList [])) as [value0 | e0]; simpl.
  - destruct (py_iter value0); simpl; intro H; [discriminate H |].
    inversion H; reflexivity.
  - intro H; inversion H; reflexivity.
Qed.

Lemma add_records_of_bad_record (rs rs' : list value) (v : value) :
  Forall (fun v => is_dict v = true) rs -> is_dict v = false ->
  forall df, for_each (rs ++ v :: rs') df add_record = Err (AttributeError "get").
Proof.
  intros Hrs Hv df. rewrite for_each_app.
  destruct (add_records_ok rs Hrs df) as [df' ->]. simpl.
  destruct v; try discriminate; reflexivity.
Qed.

(** What the listing returns once the service has answered. *)
Lemma listing_of_responses :
  forall (W : Type) (h : handler mdfE W) (w : W) cd ud (workspace responses : value),
    let o := run h (list_mounted_data_factories cd ud workspace) w in
    In (Ok responses) (answers base_api_answer (run_trace o)) ->
    run_result o
    = rbind (py_iter responses) (fun rs =>
      rbind (for_each rs (cd columns) add_page) (fun df =>
      rbind (ud df columns) (fun df => Ok df))).
Proof.
  intros W h w cd ud workspace responses.
  unfold list_mounted_data_factories, call, mbind, lift. simpl.
  answer h. destruct r as [[name id] | e]; simpl; [| intros; absent].
  answer h. destruct r as [res | e]; simpl; [| intros; absent].
  intros [H | []]. inversion H; subst. reflexivity.
Qed.

(** X3.  The listing stops at the first page it cannot read: when the
    pages before it hold item records and reading the records of a page
    fails, the listing fails with that exception.  The default [[]] of
    [r.get("value", [])] covers a missing key only: a page without 'value'
    holds no records, a page whose 'value' is [None] is a [TypeError], and
    a page that is no object is an [AttributeError]. *)
Theorem listing_fails_at_first_bad_page :
  forall (W : Type) (h : handler mdfE W) (w : W) cd ud (workspace : value)
         (good : list value) (recss : list (list value)) (bad : value)
         (rest : list value) (e : exn),
    let o := run h (list_mounted_data_factories cd ud workspace) w in
    In (Ok (VList (good ++ bad :: rest))) (answers base_api_answer (run_trace o)) ->
    Forall2 (fun page rs => page_records page = Ok rs) good recss ->
    Forall (fun v => is_record v = true) (concat recss) ->
    page_records bad = Err e ->
    run_result o = Err e
    /\ (forall d, assoc "value" d = None -> page_records (VDict d) = Ok [])
    /\ (forall d, assoc "value" d = Some VNone ->
          page_records (VDict d) = Err (TypeError "not iterable"))
    /\ (forall page, is_dict page = false ->
          page_records page = Err (AttributeError "get")).
Proof.
  intros W h w cd ud workspace good recss bad rest e o Hin Hgood Hrec Hbad.
  split; [| split; [| split]].
  - subst o. rewrite (listing_of_responses _ _ _ _ _ _ _ Hin). simpl.
    rewrite for_each_app.
    destruct (add_pages_ok good recss Hgood (records_are_dicts _ Hrec) (cd columns))
      as [df' ->].
    simpl. rewrite (add_page_of_bad_page df' bad e Hbad). reflexivity.
  - intros d Hd. unfold page_records. simpl. rewrite Hd. reflexivity.
  - intros d Hd. unfold page_records. simpl. rewrite Hd. reflexivity.
  - intros page Hp. destruct page; try discriminate; reflexivity.
Qed.

(** The second page has [null] for its 'value'. *)
Lemma listing_fails_at_first_bad_page_witness :
  run_result
    (run (Demo.service
            (VList [ VDict [("value", VList [VDict [("id", VStr "id1")]])];
                     VDict [("value", VNone)] ])
            VNone true)
         (list_mounted_data_factories Demo.create_dataframe
            Demo.update_dataframe_datatypes VNone) 0%nat)
  = Err (TypeError "not iterable").
Proof.
  apply (listing_fails_at_first_bad_page nat
           (Demo.service
              (VList [ VDict [("value", VList [VDict [("id", VStr "id1")]])];
                       VDict [("value", VNone)] ])
              VNone true) 0%nat
           Demo.create_dataframe Demo.update_dataframe_datatypes VNone
           [VDict [("value", VList [VDict [("id", VStr "id1")]])]]
           [[VDict [("id", VStr "id1")]]]
           (VDict [("value", VNone)]) []).
  - simpl. left. reflexivity.
  - repeat constructor.
  - repeat constructor.
  - reflexivity.
Defined.

(** X4.  An entry of a page's 'value' that is no JSON object makes the
    listing fail with [AttributeError] (it has no [get]), whatever comes
    after it; the rows built so far are lost with it. *)
Theorem listing_fails_at_record_that_is_no_object :
  forall (W : Type) (h : handler mdfE W) (w : W) cd ud (workspace : value)
         (good : list value) (recss : list (list value)) (page : value)
         (rest rs rs' : list value) (v : value),
    let o := run h (list_mounted_data_factories cd ud workspace) w in
    In (Ok (VList (good ++ page :: rest))) (answers base_api_answer (run_trace o)) ->
    Forall2 (fun page rs => page_records page = Ok rs) good recss ->
    Forall (fun v => is_record v = true) (concat recss) ->
    page_records page = Ok (rs ++ v :: rs') ->
    Forall (fun v => is_record v = true) rs ->
    is_dict v = false ->
    run_result o = Err (AttributeError "get").
Proof.
  intros W h w cd ud workspace good recss page rest rs rs' v o
         Hin Hgood Hrec Hpage Hrs Hv.
  subst o. rewrite (listing_of_responses _ _ _ _ _ _ _ Hin). simpl.
  rewrite for_each_app.
  destruct (add_pages_ok good recss Hgood (records_are_dicts _ Hrec) (cd columns))
    as [df' ->].
  simpl. unfold add_page at 1. unfold page_records in Hpage.
  destruct (py_get_default page "value" (VList [])) as [value0 | e0];
    simpl in *; [| discriminate].
  rewrite Hpage. simpl.
  rewrite (add_records_of_bad_record rs rs' v (records_are_dicts _ Hrs) Hv df').
  reflexivity.
Qed.

(** The listing holds a name where a record should be. *)
Lemma listing_fails_at_record_witness :
  run_result
    (run (Demo.service
            (VList [VDict [("value", VList [VDict [("id", VStr "id1")]; VStr "DF2"])]])
            VNone true)
         (list_mounted_data_factories Demo.create_dataframe
            Demo.update_dataframe_datatypes VNone) 0%nat)
  = Err (AttributeError "get").
Proof.
  apply (listing_fails_at_record_that_is_no_object nat
           (Demo.service
              (VList [VDict [("value", VList [VDict [("id", VStr "id1")]; VStr "DF2"])]])
              VNone true) 0%nat
           Demo.create_dataframe Demo.update_dataframe_datatypes VNone
           [] [] (VDict [("value", VList [VDict [("id", VStr "id1")]; VStr "DF2"])])
           [] [VDict [("id", VStr "id1")]] [] (VStr "DF2")).
  - simpl. left. reflexivity.
  - constructor.
  - constructor.
  - reflexivity.
  - repeat constructor.
  - reflexivity.
Defined.

(** ** Malformed bundles *)

(** What the definition fetch returns once the service has answered. *)
Lemma definition_of_bundle :
  forall (W : Type) (h : handler mdfE W) (w : W) dec loads (item workspace bundle : value),
    let o := run h (get_mounted_data_factory_definition dec loads item workspace) w in
    In (Ok bundle) (answers base_api_answer (run_trace o)) ->
    run_result o
    = rbind (py_getitem bundle "definition") (fun definition =>
      rbind (py_getitem definition "parts") (fun parts =>
      rbind (py_iter parts) (fun ps =>
      rbind (next_payload content_path ps) (fun payload =>
      rbind (dec payload) loads)))).
Proof.
  intros W h w dec loads item workspace bundle.
  unfold get_mounted_data_factory_definition, call, mbind, lift. simpl.
  answer h. destruct r as [[name id] | e]; simpl; [| intros; absent].
  answer h. destruct r as [item_id | e]; simpl; [| intros; absent].
  answer h. destruct r as [res | e]; simpl; [| intros; absent].
  intros [H | []]. inversion H; subst. reflexivity.
Qed.

(** X5.  A bundle without the key 'definition', or whose definition has
    no key 'parts', makes the fetch fail with [KeyError] for that key; an
    answer that is no object, or a definition that is none, is a
    [TypeError]. *)
Theorem definition_of_bundle_without_keys :
  forall (W : Type) (h : handler mdfE W) (w : W) dec loads (item workspace bundle : value),
    let o := run h (get_mounted_data_factory_definition dec loads item workspace) w in
    In (Ok bundle) (answers base_api_answer (run_trace o)) ->
    (forall d, bundle = VDict d -> assoc "definition" d = None ->
               run_result o = Err (KeyError "definition"))
    /\ (forall d d', bundle = VDict d -> assoc "definition" d = Some (VDict d') ->
                     assoc "parts" d' = None ->
                     run_result o = Err (KeyError "parts"))
    /\ (is_dict bundle = false -> run_result o = Err (TypeError "subscript"))
    /\ (forall d definition, bundle = VDict d ->
                     assoc "definition" d = Some definition ->
                     is_dict definition = false ->
                     run_result o = Err (TypeError "subscript")).
Proof.
  intros W h w dec loads item workspace bundle o Hin. subst o.
  rewrite (definition_of_bundle _ _ _ _ _ _ _ _ Hin).
  split; [| split; [| split]].
  - intros d -> Hd. simpl. rewrite Hd. reflexivity.
  - intros d d' -> Hd Hp. simpl. rewrite Hd. simpl. rewrite Hp. reflexivity.
  - intro Hb. destruct bundle; try discriminate; reflexivity.
  - intros d definition -> Hd Hdef. simpl. rewrite Hd. simpl.
    destruct definition; try discriminate; reflexivity.
Qed.

(** The service answers with an empty object. *)
Lemma definition_of_bundle_without_keys_witness :
  run_result (run (Demo.service VNone (VDict []) true)
                (get_mounted_data_factory_definition Demo.decode_b64 Demo.json_loads
                   (VStr "DF1") VNone) 0%nat)
  = Err (KeyError "definition").
Proof.
  destruct (definition_of_bundle_without_keys nat
              (Demo.service VNone (VDict []) true) 0%nat
              Demo.decode_b64 Demo.json_loads (VStr "DF1") VNone (VDict []))
    as (H & _).
  - simpl. left. reflexivity.
  - apply (H []); reflexivity.
Defined.

Lemma next_payload_bad_part (path : string) (before after : list value) (bad : value) :
  Forall (fun q => is_dict q = true /\ has_path path q = false) before ->
  is_dict bad = false ->
  next_payload path (before ++ bad :: after) = Err (AttributeError "get").
Proof.
  intros Hb Hbad. induction Hb as [| q before [Hq Hn] _ IH]; simpl.
  - destruct bad; try discriminate; reflexivity.
  - destruct q; try discriminate. simpl in *. rewrite Hn. exact IH.
Qed.

(** X6.  The search for the content part looks at the parts in order and
    stops at a part that is no JSON object: when no part before it has the
    path, the fetch fails with [AttributeError], also if the content part
    comes later in the bundle. *)
Theorem definition_fails_at_part_that_is_no_object :
  forall (W : Type) (h : handler mdfE W) (w : W) dec loads
         (item workspace bundle definition : value)
         (before after : list value) (bad : value),
    let o := run h (get_mounted_data_factory_definition dec loads item workspace) w in
    In (Ok bundle) (answers base_api_answer (run_trace o)) ->
    py_getitem bundle "definition" = Ok definition ->
    py_getitem definition "parts" = Ok (VList (before ++ bad :: after)) ->
    Forall (fun q => is_dict q = true /\ has_path content_path q = false) before ->
    is_dict bad = false ->
    run_result o = Err (AttributeError "get").
Proof.
  intros W h w dec loads item workspace bundle definition before after bad o
         Hin Hd Hp Hbefore Hbad.
  subst o. rewrite (definition_of_bundle _ _ _ _ _ _ _ _ Hin).
  rewrite Hd. simpl. rewrite Hp. simpl.
  rewrite (next_payload_bad_part content_path before after bad Hbefore Hbad).
  reflexivity.
Qed.

(** A string sits before the content part. *)
Lemma definition_fails_at_part_witness :
  run_result
    (run (Demo.service VNone
            (VDict [("definition",
               VDict [("parts",
                 VList [ VStr "junk";
                         VDict [("path", VStr "mountedDataFactory-content.json");
                                ("payload", VStr "p")] ])])])
            true)
         (get_mounted_data_factory_definition Demo.decode_b64 Demo.json_loads
            (VStr "DF1") VNone) 0%nat)
  = Err (AttributeError "get").
Proof.
  apply (definition_fails_at_part_that_is_no_object nat
           (Demo.service VNone
              (VDict [("definition",
                 VDict [("parts",
                   VList [ VStr "junk";
                           VDict [("path", VStr "mountedDataFactory-content.json");
                                  ("payload", VStr "p")] ])])])
              true) 0%nat
           Demo.decode_b64 Demo.json_loads (VStr "DF1") VNone
           (VDict [("definition",
              VDict [("parts",
                VList [ VStr "junk";
                        VDict [("path", VStr "mountedDataFactory-content.json");
                               ("payload", VStr "p")] ])])])
           (VDict [("parts",
              VList [ VStr "junk";
                      VDict [("path", VStr "mountedDataFactory-content.json");
                             ("payload", VStr "p")] ])])
           [] [VDict [("path", VStr "mountedDataFactory-content.json");
                      ("payload", VStr "p")]]
           (VStr "junk")).
  - simpl. left. reflexivity.
  - reflexivity.
  - reflexivity.
  - constructor.
  - reflexivity.
Defined.

(** ** Deleting *)

(** X7.  When the mounted data factory does not resolve, nothing is
    deleted: the exception of the resolver leaves the function, no
    deletion call is made and no success message is printed. *)
Theorem delete_nothing_when_unresolved :
  forall (W : Type) (h : handler mdfE W) (w : W) (item workspace : value) (e : exn),
    let o := run h (delete_mounted_data_factory item workspace) w in
    In (Err e) (answers item_pair_answer (run_trace o)) ->
    run_result o = Err e
    /\ count is_delete_call (run_trace o) = 0%nat
    /\ count is_print_success (run_trace o) = 0%nat.
Proof.
  intros W h w item workspace e.
  unfold delete_mounted_data_factory, call, mbind. simpl.
  answer h. destruct r as [[name id] | e0]; simpl;
    [answer h; destruct r as [[] | e1]; simpl; [answer h; destruct r; simpl |] |];
    intros; absent; inj; auto.
Qed.

Lemma delete_nothing_when_unresolved_witness :
  let o := run DemoMore.no_item (delete_mounted_data_factory (VStr "DF9") VNone) 0%nat in
  run_result o = Err (Raised "ValueError")
  /\ count is_delete_call (run_trace o) = 0%nat
  /\ count is_print_success (run_trace o) = 0%nat.
Proof.
  apply (delete_nothing_when_unresolved nat DemoMore.no_item 0%nat (VStr "DF9") VNone
           (Raised "ValueError")).
  simpl. left. reflexivity.
Defined.

(** X8.  After a deletion that succeeded, the function calls
    [_print_success] once, with the name the resolver gave, the item type
    'Mounted Data Factory' and the action 'deleted', and ends as that call
    ends: the deletion is not undone when the message fails. *)
Theorem delete_then_success_message :
  forall (W : Type) (h : handler mdfE W) (w : W) (item workspace : value)
         (item_name item_id : string),
    let o := run h (delete_mounted_data_factory item workspace) w in
    In (Ok (item_name, item_id)) (answers item_pair_answer (run_trace o)) ->
    In (Ok tt) (answers delete_answer (run_trace o)) ->
    exists r,
      answers print_success_call (run_trace o)
      = [(item_name, "Mounted Data Factory", "deleted", r)]
      /\ run_result o = r
      /\ count is_delete_call (run_trace o) = 1%nat.
Proof.
  intros W h w item workspace item_name item_id.
  unfold delete_mounted_data_factory, call, mbind. simpl.
  answer h. destruct r as [[name id] | e0]; simpl;
    [answer h; destruct r as [[] | e1]; simpl; [answer h; destruct r; simpl |] |];
    intros; absent; inj; eexists; repeat split.
Qed.

Lemma delete_then_success_message_witness :
  let o := run (Demo.service VNone VNone true)
               (delete_mounted_data_factory (VStr "DF1") (VStr "ws")) 0%nat in
  exists r,
    answers print_success_call (run_trace o)
    = [("DF1", "Mounted Data Factory", "deleted", r)]
    /\ run_result o = r
    /\ count is_delete_call (run_trace o) = 1%nat.
Proof.
  apply (delete_then_success_message nat (Demo.service VNone VNone true) 0%nat
           (VStr "DF1") (VStr "ws") "DF1" "id1").
  - simpl. left. reflexivity.
  - simpl. left. reflexivity.
Defined.

(** ** Calls that do not bind *)

Lemma bind_positional_nil (sig : list param) :
  bind_positional sig [] = Ok ([], sig).
Proof. destruct sig; reflexivity. Qed.

Lemma bind_positional_cons (n : string) (d : option value) (sig : list param)
      (a : value) (args : list value) :
  bind_positional ((n, d) :: sig) (a :: args)
  = rbind (bind_positional sig args) (fun br => Ok ((n, a) :: fst br, snd br)).
Proof. reflexivity. Qed.

Lemma bind_positional_type_error (sig : list param) (args : list value) :
  match bind_positional sig args with
  | Ok _ => True
  | Err e => exists msg, e = TypeError msg
  end.
Proof.
  revert sig. induction args as [| a args IH]; intros sig.
  - rewrite bind_positional_nil. exact I.
  - destruct sig as [| [n d] sig]; [simpl; eexists; reflexivity |].
    rewrite bind_positional_cons. generalize (IH sig).
    destruct (bind_positional sig args); simpl; auto.
Qed.

Lemma bind_positional_too_many (sig : list param) (args : list value) :
  (length sig < length args)%nat ->
  exists msg, bind_positional sig args = Err (TypeError msg).
Proof.
  revert sig. induction args as [| a args IH]; intros sig Hlen; simpl in Hlen; [lia |].
  destruct sig as [| [n d] sig]; [simpl; eexists; reflexivity |].
  rewrite bind_positional_cons. simpl in Hlen.
  destruct (IH sig) as [msg ->]; [lia |].
  eexists; reflexivity.
Qed.

Lemma bind_positional_unbound (sig : list param) (args : list value) (k : string) :
  mem k (parameters sig) = false ->
  forall b rest, bind_positional sig args = Ok (b, rest) ->
                 mem k (parameters rest) = false.
Proof.
  revert sig. induction args as [| a args IH]; intros sig Hk b rest H.
  - rewrite bind_positional_nil in H. inversion H; subst. exact Hk.
  - destruct sig as [| [n d] sig]; [discriminate |].
    rewrite bind_positional_cons in H.
    destruct (bind_positional sig args) as [[b' rest'] | e] eqn:Hb; simpl in H;
      [| discriminate].
    inversion H; subst. unfold parameters, mem in Hk. simpl in Hk.
    apply orb_false_iff in Hk. destruct Hk as [_ Hk].
    apply (IH sig Hk b' rest Hb).
Qed.

Lemma check_keywords_unknown (unbound : list string) (kws : list (string * value))
      (k : string) :
  In k (map fst kws) -> mem k unbound = false ->
  exists msg, check_keywords unbound kws = Err (TypeError msg).
Proof.
  intros Hin Hk. induction kws as [| [k0 v0] kws IH]; simpl in *; [destruct Hin |].
  destruct (mem k0 unbound) eqn:Hk0; simpl; [| eexists; reflexivity].
  destruct (mem k0 (map fst kws)); [eexists; reflexivity |].
  destruct Hin as [-> | Hin]; [congruence | auto].
Qed.

Lemma bind_params_rejects (sig : list param) (c : call_args) :
  (exists k, In k (map fst (keywords c)) /\ mem k (parameters sig) = false)
  \/ (length sig < length (positional c))%nat ->
  exists msg, bind_params sig c = Err (TypeError msg).
Proof.
  intros H. unfold bind_params.
  pose proof (bind_positional_type_error sig (positional c)) as Hp.
  destruct (bind_positional sig (positional c)) as [[b rest] | e] eqn:Hb; simpl.
  - destruct H as [(k & Hin & Hk) | Hlen].
    + destruct (check_keywords_unknown (map fst rest) (keywords c) k Hin
                  (bind_positional_unbound sig (positional c) k Hk b rest Hb))
        as [msg ->].
      eexists; reflexivity.
    + destruct (bind_positional_too_many sig (positional c) Hlen) as [msg Hm].
      congruence.
  - destruct Hp as [msg ->]. eexists; reflexivity.
Qed.

(** X9.  A call of any of the three functions with a keyword that names
    none of their parameters, or with more than two positional arguments,
    raises [TypeError] while the arguments are bound: no collaborator is
    called, so nothing is resolved, requested or deleted. *)
Theorem call_that_does_not_bind :
  forall (W : Type) (h : handler mdfE W) (w : W) cd ud dec loads (c : call_args),
    (exists k, In k (map fst (keywords c))
               /\ k <> "mounted_data_factory" /\ k <> "workspace")
    \/ (2 < length (positional c))%nat ->
    (exists msg, run h (call_list_mounted_data_factories cd ud c) w
                 = (Err (TypeError msg), [], w))
    /\ (exists msg, run h (call_get_mounted_data_factory_definition dec loads c) w
                    = (Err (TypeError msg), [], w))
    /\ (exists msg, run h (call_delete_mounted_data_factory c) w
                    = (Err (TypeError msg), [], w)).
Proof.
  intros W h w cd ud dec loads c H.
  assert (Hsig : forall sig,
             incl (parameters sig) ["mounted_data_factory"; "workspace"] ->
             (length sig <= 2)%nat ->
             exists msg, bind_params sig c = Err (TypeError msg)).
  { intros sig Hincl Hlen. apply bind_params_rejects.
    destruct H as [(k & Hin & H1 & H2) | Hpos]; [left | right; lia].
    exists k. split; [exact Hin |].
    destruct (mem k (parameters sig)) eqn:Hm; [| reflexivity].
    unfold mem in Hm. apply existsb_exists in Hm. destruct Hm as (x & Hx & Heq).
    apply String.eqb_eq in Heq. subst x.
    destruct (Hincl k Hx) as [E | [E | []]]; congruence. }
  split; [| split].
  - destruct (Hsig sig_list_mounted_data_factories) as [msg Hm].
    + intros x [<- | []]. simpl. auto.
    + simpl. lia.
    + exists msg. unfold call_list_mounted_data_factories, mbind, lift. simpl.
      rewrite Hm. reflexivity.
  - destruct (Hsig sig_get_mounted_data_factory_definition) as [msg Hm].
    + intros x Hx. exact Hx.
    + simpl. lia.
    + exists msg. unfold call_get_mounted_data_factory_definition, mbind, lift. simpl.
      rewrite Hm. reflexivity.
  - destruct (Hsig sig_delete_mounted_data_factory) as [msg Hm].
    + intros x Hx. exact Hx.
    + simpl. lia.
    + exists msg. unfold call_delete_mounted_data_factory, mbind, lift. simpl.
      rewrite Hm. reflexivity.
Qed.

(** [delete_mounted_data_factory("DF1", "ws", force=True)] *)
Lemma call_that_does_not_bind_witness :
  exists msg,
    run (Demo.service VNone VNone true)
        (call_delete_mounted_data_factory
           (mkCall [VStr "DF1"; VStr "ws"] [("force", VBool true)])) 0%nat
    = (Err (TypeError msg), [], 0%nat).
Proof.
  apply (call_that_does_not_bind nat (Demo.service VNone VNone true) 0%nat
           Demo.create_dataframe Demo.update_dataframe_datatypes
           Demo.decode_b64 Demo.json_loads
           (mkCall [VStr "DF1"; VStr "ws"] [("force", VBool true)])).
  left. exists "force". simpl. repeat split; [auto | discriminate | discriminate].
Defined.

End MountedDataFactoriesMore.

(** * More properties of [UpdateDirectLakeModelLakehouseConnection.py] *)

Module UpdateDirectLakeMore.
Import UpdateDirectLake DlTrace DlCalls DlOrder UpdateDirectLakeSpec.

Lemma nonempty_frame_len (f : DataFrame) :
  Nat.eqb (len f) 0 = false -> rows f <> [].
Proof. unfold len. intros H E. rewrite E in H. discriminate H. Qed.

Lemma zero_len_frame (f : DataFrame) :
  Nat.eqb (len f) 0 = true -> rows f = [].
Proof. unfold len. destruct (rows f); [reflexivity | discriminate]. Qed.

Section RemapMore.
Variables (W : Type) (h : handler dlE W) (w : W).
Variables (dataset : string) (workspace lakehouse lakehouse_workspace : option string).

Let o := run h (update_direct_lake_model_lakehouse_connection
                  dataset workspace lakehouse lakehouse_workspace) w.

(** X10.  The connection is entered only for a Direct Lake model: an entry
    in the trace is for the model given, read/write, in the workspace of
    the model, and it comes after the partitions were listed with at least
    one of them in 'DirectLake' mode. *)
Theorem connection_only_for_direct_lake :
  forall ds ro ws r,
    In (ds, ro, ws, r) (answers enter_call (run_trace o)) ->
    ds = dataset /\ ro = false
    /\ workspace_is workspace (run_trace o) ws
    /\ exists dfP f,
        In (Ok dfP) (answers partitions_answer (run_trace o))
        /\ df_filter_eq dfP "Mode" "DirectLake" = Ok f
        /\ rows f <> [].
Proof.
  subst o.
  unfold update_direct_lake_model_lakehouse_connection, with_as, try_except,
    print, call, mbind, lift, workspace_is.
  destruct workspace as [ws0 |], lakehouse as [lh |];
    crank h;
    unfold run_trace; simpl;
    intros ds ro ws r Hin; absent; inj;
    (split; [reflexivity |]); (split; [reflexivity |]);
    (split; [first [reflexivity | simpl; auto] |]);
    do 2 eexists; (split; [left; reflexivity |]);
    (split; [eassumption | apply nonempty_frame_len; assumption]).
Qed.
(** X11.  The check of the lakehouse is advisory.  When the items of the
    lakehouse workspace hold no lakehouse of that name, the function
    prints that the lakehouse does not exist, and nothing else, before it
    lists the partitions, which it does all the same; when they hold one,
    it prints nothing before it lists the partitions, and at most one
    message in all. *)
Theorem lakehouse_check_is_advisory :
  forall wsname lh dfI f,
    workspace_is workspace (run_trace o) wsname ->
    lakehouse_is lakehouse (run_trace o) lh ->
    In (Ok dfI) (answers items_answer (run_trace o)) ->
    df_filter_eq dfI "Display Name" lh = Ok f ->
    count is_partitions_call (run_trace o) = 1%nat
    /\ (rows f = [] ->
        answers printed (before_partitions (run_trace o))
        = [msg_no_lakehouse lh
             (lakehouse_workspace_or lakehouse_workspace wsname)
             dataset wsname]
        /\ hd_error (answers printed (run_trace o))
           = Some (msg_no_lakehouse lh
                     (lakehouse_workspace_or lakehouse_workspace wsname)
                     dataset wsname))
    /\ (rows f <> [] ->
        answers printed (before_partitions (run_trace o)) = []
        /\ (length (answers printed (run_trace o)) <= 1)%nat).
Proof.
  subst o.
  unfold update_direct_lake_model_lakehouse_connection, with_as, try_except,
    print, call, mbind, lift, workspace_is, lakehouse_is, lakehouse_workspace_or.
  destruct workspace as [ws0 |], lakehouse as [lh0 |];
    crank h;
    unfold run_trace, items_answer; simpl;
    intros wsname lh' dfI f' Hws Hlh Hin Hfilter; absent; subst; inj;
    try congruence;
    (split; [reflexivity |]);
    (split; intro Hrows;
     [ first [ split; reflexivity
             | exfalso;
               match goal with
               | H : Nat.eqb (len ?g) 0 = false |- _ =>
                   assert (rows g = []) by congruence;
                   rewrite (empty_frame_len g) in H by assumption;
                   discriminate H
               end ]
     | first [ split; [reflexivity | simpl; lia]
             | exfalso; apply Hrows;
               match goal with
               | H : Nat.eqb (len ?g) 0 = true |- _ =>
                   assert (f' = g) by congruence; subst;
                   apply zero_len_frame; assumption
               end ] ]).
Qed.

(** X12.  The lakehouse workspace defaults to the workspace of the
    model: the items are listed, the attached lakehouse is named and the
    shared expression is asked for in the lakehouse workspace given, and
    in the workspace of the model when none is given; the items are asked
    for with type 'Lakehouse' and the shared expression for the lakehouse
    that was checked. *)
Theorem lakehouse_workspace_defaults_to_workspace :
  forall wsname,
    workspace_is workspace (run_trace o) wsname ->
    (forall x ty r, In (x, ty, r) (answers items_call (run_trace o)) ->
                    x = lakehouse_workspace_or lakehouse_workspace wsname
                    /\ ty = "Lakehouse")
    /\ (forall id x r, In (id, x, r) (answers lakehouse_name_call (run_trace o)) ->
                       x = lakehouse_workspace_or lakehouse_workspace wsname)
    /\ (forall lh x r, In (lh, x, r) (answers shared_call (run_trace o)) ->
                       x = lakehouse_workspace_or lakehouse_workspace wsname
                       /\ lakehouse_is lakehouse (run_trace o) lh).
Proof.
  subst o.
  unfold update_direct_lake_model_lakehouse_connection, with_as, try_except,
    print, call, mbind, lift, workspace_is, lakehouse_is, lakehouse_workspace_or.
  destruct workspace as [ws0 |], lakehouse as [lh0 |];
    crank h;
    unfold run_trace, lakehouse_name_answer; simpl;
    intros wsname Hws; absent; subst; inj;
    repeat split; intros; absent; inj; simpl; auto.
Qed.

Lemma filter_without_column (df : DataFrame) (c s : string) :
  mem c (labels df) = false -> df_filter_eq df c s = Err (KeyError c).
Proof.
  intro H. unfold df_filter_eq, df_column.
  assert (Hi : index_of c (labels df) = None).
  { revert H. unfold mem. induction (labels df) as [| c' cs IH]; simpl; intro H;
      [reflexivity |].
    apply orb_false_iff in H. destruct H as [H1 H2].
    rewrite String.eqb_sym, H1. rewrite (IH H2). reflexivity. }
  rewrite Hi. reflexivity.
Qed.

(** X13.  A listing without the column the function filters on ends the
    function with [KeyError]: items without 'Display Name' before the
    partitions are listed and before anything is printed, partitions
    without 'Mode' before the connection is touched. *)
Theorem listing_without_its_column :
  (forall dfI,
      In (Ok dfI) (answers items_answer (run_trace o)) ->
      mem "Display Name" (labels dfI) = false ->
      run_result o = Err (KeyError "Display Name")
      /\ count is_partitions_call (run_trace o) = 0%nat
      /\ answers printed (run_trace o) = [])
  /\ (forall dfP,
      In (Ok dfP) (answers partitions_answer (run_trace o)) ->
      mem "Mode" (labels dfP) = false ->
      run_result o = Err (KeyError "Mode")
      /\ count is_connection_event (run_trace o) = 0%nat).
Proof.
  subst o.
  unfold update_direct_lake_model_lakehouse_connection, with_as, try_except,
    print, call, mbind, lift.
  destruct workspace as [ws0 |], lakehouse as [lh0 |];
    crank h;
    unfold run_trace, run_result, items_answer; simpl;
    (split; intros df Hin Hmem; absent; inj;
     match goal with
     | H : df_filter_eq df ?c ?s = _ |- _ =>
         rewrite (filter_without_column df c s Hmem) in H; inj
     end;
     repeat split).
Qed.

(** X14.  When [get_shared_expression] raises, nothing of the model is
    looked up or written; the exit of the block is handed the exception,
    and the function raises it again unless the exit suppresses it or
    raises itself. *)
Theorem shared_expression_failure_reaches_the_exit :
  forall e,
    In (Err e) (answers shared_expression_answer (run_trace o)) ->
    answers lookup_of (run_trace o) = []
    /\ answers write_of (run_trace o) = []
    /\ exists t r,
        last_exit (run_trace o) = Some (t, Some e, r)
        /\ run_result o = match r with
                          | Ok true => Ok tt
                          | Ok false => Err e
                          | Err e' => Err e'
                          end.
Proof.
  subst o.
  unfold update_direct_lake_model_lakehouse_connection, with_as, try_except,
    print, call, mbind, lift.
  destruct workspace as [ws0 |], lakehouse as [lh0 |];
    crank h;
    unfold run_trace, run_result, last_exit; simpl;
    intros e' Hin; absent; inj;
    repeat split; do 2 eexists; split; reflexivity.
Qed.

(** X15.  The bare [except] swallows the cause: when the lookup of
    'DatabaseQuery' or the write raises, the exception reaches neither the
    exit of the block, which is called as after a normal end, nor the
    caller; the function returns normally unless the exit itself raises. *)
Theorem failed_write_is_swallowed :
  forall e,
    (exists name, In (name, Err e) (answers lookup_of (run_trace o)))
    \/ (exists x v, In (x, v, Err e) (answers write_of (run_trace o))) ->
    exists t r,
      last_exit (run_trace o) = Some (t, None, r)
      /\ run_result o = match r with
                        | Ok _ => Ok tt
                        | Err e' => Err e'
                        end.
Proof.
  subst o.
  unfold update_direct_lake_model_lakehouse_connection, with_as, try_except,
    print, call, mbind, lift.
  destruct workspace as [ws0 |], lakehouse as [lh0 |];
    crank h;
    unfold run_trace, run_result, last_exit; simpl;
    intros e' [[name Hin] | [x [v Hin]]]; absent; inj;
    do 2 eexists; split; reflexivity.
Qed.

(** X16.  The message of success is printed before the block is left:
    after a write that succeeded, the last message printed says that the
    model was updated to the lakehouse and workspace the shared expression
    was asked for, and only then the exit runs; when the exit raises, the
    function raises after having printed that message. *)
Theorem success_message_before_the_exit :
  forall x v lh lw r0,
    In (x, v, Ok tt) (answers write_of (run_trace o)) ->
    In (lh, lw, r0) (answers shared_call (run_trace o)) ->
    last (answers printed (run_trace o)) "" = msg_updated dataset lh lw
    /\ exists t r,
        last_exit (run_trace o) = Some (t, None, r)
        /\ run_result o = match r with
                          | Ok _ => Ok tt
                          | Err e' => Err e'
                          end.
Proof.
  subst o.
  unfold update_direct_lake_model_lakehouse_connection, with_as, try_except,
    print, call, mbind, lift.
  destruct workspace as [ws0 |], lakehouse as [lh0 |];
    crank h;
    unfold run_trace, run_result, last_exit; simpl;
    intros x v lh lw r0 Hw Hs; absent; inj;
    (split; [reflexivity | do 2 eexists; split; reflexivity]).
Qed.

(** X17.  The function prints at most two messages.  When it returns
    normally and no exception was handed to the exit, the last message it
    printed tells what happened: it says that the model is not in Direct
    Lake when the connection was never touched, that the expression was
    updated (for the lakehouse and workspace of the shared expression)
    when the write succeeded, and that the expression was not updated when
    the lookup or the write raised; one of the three is the case. *)
Theorem last_message_is_the_outcome :
  (length (answers printed (run_trace o)) <= 2)%nat
  /\ (run_result o = Ok tt ->
      (forall t exc r, In (t, exc, r) (answers exit_of (run_trace o)) -> exc = None) ->
      (count is_connection_event (run_trace o) = 0%nat
       /\ last (answers printed (run_trace o)) "" = msg_not_direct_lake dataset)
      \/ (exists x v lh lw r0,
             In (x, v, Ok tt) (answers write_of (run_trace o))
             /\ In (lh, lw, r0) (answers shared_call (run_trace o))
             /\ last (answers printed (run_trace o)) "" = msg_updated dataset lh lw)
      \/ (((exists name e, In (name, Err e) (answers lookup_of (run_trace o)))
           \/ (exists x v e, In (x, v, Err e) (answers write_of (run_trace o))))
          /\ last (answers printed (run_trace o)) "" = msg_error dataset)).
Proof.
  subst o.
  unfold update_direct_lake_model_lakehouse_connection, with_as, try_except,
    print, call, mbind, lift.
  destruct workspace as [ws0 |], lakehouse as [lh0 |];
    crank h;
    repeat match goal with u : unit |- _ => destruct u end;
    unfold run_trace, run_result; simpl;
    (split; [lia |]); intros Hr Hexc; inj;
    try (specialize (Hexc _ _ _ (or_introl eq_refl)); discriminate Hexc);
    first [ left; split; reflexivity
          | right; left; do 5 eexists;
            split; [left; reflexivity | split; [left; reflexivity | reflexivity]]
          | right; right; split; [| reflexivity];
            first [ left; do 2 eexists; left; reflexivity
                  | right; do 3 eexists; left; reflexivity ] ].
Qed.
(** X18.  An exception of a resolver or of a listing leaves the function
    as it is, and the connection to the model is never touched. *)
Theorem resolution_failure_leaves_the_model_alone :
  forall e,
    In e (answers resolution_error (run_trace o)) ->
    run_result o = Err e
    /\ count is_connection_event (run_trace o) = 0%nat.
Proof.
  subst o.
  unfold update_direct_lake_model_lakehouse_connection, with_as, try_except,
    print, call, mbind, lift.
  destruct workspace as [ws0 |], lakehouse as [lh0 |];
    crank h;
    unfold run_trace, run_result; simpl;
    intros e' Hin; absent; subst; split; reflexivity.
Qed.

(** X19.  When entering the connection raises, the exception leaves the
    function: the exit is not called, the shared expression is not asked
    for, and nothing of the model is looked up or written. *)
Theorem failed_entry_has_no_exit :
  forall e,
    In (Err e) (answers enter_answer (run_trace o)) ->
    run_result o = Err e
    /\ count is_exit (run_trace o) = 0%nat
    /\ answers shared_call (run_trace o) = []
    /\ answers lookup_of (run_trace o) = []
    /\ answers write_of (run_trace o) = [].
Proof.
  subst o.
  unfold update_direct_lake_model_lakehouse_connection, with_as, try_except,
    print, call, mbind, lift.
  destruct workspace as [ws0 |], lakehouse as [lh0 |];
    crank h;
    unfold run_trace, run_result; simpl;
    intros e' Hin; absent; inj; repeat split.
Qed.
End RemapMore.

(** ** The properties on runs *)

(** A Direct Lake model, remapped to the lakehouse "Lake". *)
Lemma connection_only_for_direct_lake_witness :
  let o := run (Demo.fabric "DirectLake" true true)
               (update_direct_lake_model_lakehouse_connection
                  "Sales" (Some "ws") (Some "Lake") None) 0%nat in
  exists dfP f,
    In (Ok dfP) (answers partitions_answer (run_trace o))
    /\ df_filter_eq dfP "Mode" "DirectLake" = Ok f
    /\ rows f <> [].
Proof.
  apply (connection_only_for_direct_lake nat (Demo.fabric "DirectLake" true true) 0%nat
           "Sales" (Some "ws") (Some "Lake") None "Sales" false "ws" (Ok 7%nat)).
  simpl. left. reflexivity.
Defined.

(** The workspace has no lakehouse "Nowhere". *)
Lemma lakehouse_check_is_advisory_witness :
  let o := run (Demo.fabric "DirectLake" true true)
               (update_direct_lake_model_lakehouse_connection
                  "Sales" (Some "ws") (Some "Nowhere") None) 0%nat in
  count is_partitions_call (run_trace o) = 1%nat
  /\ answers printed (before_partitions (run_trace o))
     = [msg_no_lakehouse "Nowhere" "ws" "Sales" "ws"]
  /\ hd_error (answers printed (run_trace o))
     = Some (msg_no_lakehouse "Nowhere" "ws" "Sales" "ws").
Proof.
  destruct (lakehouse_check_is_advisory nat (Demo.fabric "DirectLake" true true) 0%nat
              "Sales" (Some "ws") (Some "Nowhere") None
              "ws" "Nowhere" Demo.lakehouses
              (mkDataFrame ["Id"; "Display Name"] []))
    as (H1 & H2 & _).
  - reflexivity.
  - reflexivity.
  - simpl. left. reflexivity.
  - reflexivity.
  - split; [exact H1 | apply H2; reflexivity].
Defined.

(** The lakehouse "Lake" is among the items: nothing is printed before the
    partitions are listed. *)
Example lakehouse_found_no_message :
  let o := run (Demo.fabric "DirectLake" true true)
               (update_direct_lake_model_lakehouse_connection
                  "Sales" (Some "ws") (Some "Lake") None) 0%nat in
  answers printed (before_partitions (run_trace o)) = []
  /\ answers printed (run_trace o) = [msg_updated "Sales" "Lake" "ws"].
Proof. split; reflexivity. Qed.

(** No lakehouse workspace is given: the items of "ws" are listed. *)
Lemma lakehouse_workspace_defaults_witness :
  let o := run (Demo.fabric "DirectLake" true true)
               (update_direct_lake_model_lakehouse_connection
                  "Sales" (Some "ws") (Some "Lake") None) 0%nat in
  exists x ty r,
    In (x, ty, r) (answers items_call (run_trace o))
    /\ x = "ws" /\ ty = "Lakehouse".
Proof.
  destruct (lakehouse_workspace_defaults_to_workspace nat
              (Demo.fabric "DirectLake" true true) 0%nat
              "Sales" (Some "ws") (Some "Lake") None "ws") as (H & _).
  - reflexivity.
  - exists "ws", "Lakehouse", (Ok Demo.lakehouses).
    assert (Hin : In ("ws", "Lakehouse", Ok Demo.lakehouses)
                     (answers items_call
                        (run_trace
                           (run (Demo.fabric "DirectLake" true true)
                              (update_direct_lake_model_lakehouse_connection
                                 "Sales" (Some "ws") (Some "Lake") None) 0%nat))))
      by (simpl; left; reflexivity).
    split; [exact Hin | exact (H _ _ _ Hin)].
Defined.

(** The partitions come without their 'Mode' column. *)
Lemma listing_without_its_column_witness :
  let o := run (DemoMore.collaborators (Ok Demo.lakehouses)
                  (Ok (mkDataFrame ["Table Name"] [[VStr "Orders"]]))
                  (Ok 7%nat) (Ok VNone) (Ok "DatabaseQuery") (Ok tt) (Ok false))
               (update_direct_lake_model_lakehouse_connection
                  "Sales" (Some "ws") (Some "Lake") None) 0%nat in
  run_result o = Err (KeyError "Mode")
  /\ count is_connection_event (run_trace o) = 0%nat.
Proof.
  destruct (listing_without_its_column nat
              (DemoMore.collaborators (Ok Demo.lakehouses)
                 (Ok (mkDataFrame ["Table Name"] [[VStr "Orders"]]))
                 (Ok 7%nat) (Ok VNone) (Ok "DatabaseQuery") (Ok tt) (Ok false)) 0%nat
              "Sales" (Some "ws") (Some "Lake") None) as (_ & H).
  apply (H (mkDataFrame ["Table Name"] [[VStr "Orders"]])).
  - simpl. left. reflexivity.
  - reflexivity.
Defined.

(** The lakehouse is not provisioned: [get_shared_expression] raises. *)
Lemma shared_expression_failure_witness :
  let o := run (DemoMore.collaborators (Ok Demo.lakehouses)
                  (Ok (Demo.partitions "DirectLake"))
                  (Ok 7%nat) (Err (Raised "IndexError"))
                  (Ok "DatabaseQuery") (Ok tt) (Ok false))
               (update_direct_lake_model_lakehouse_connection
                  "Sales" (Some "ws") (Some "Lake") None) 0%nat in
  answers write_of (run_trace o) = []
  /\ last_exit (run_trace o) = Some (7%nat, Some (Raised "IndexError"), Ok false)
  /\ run_result o = Err (Raised "IndexError").
Proof.
  destruct (shared_expression_failure_reaches_the_exit nat
              (DemoMore.collaborators (Ok Demo.lakehouses)
                 (Ok (Demo.partitions "DirectLake"))
                 (Ok 7%nat) (Err (Raised "IndexError"))
                 (Ok "DatabaseQuery") (Ok tt) (Ok false)) 0%nat
              "Sales" (Some "ws") (Some "Lake") None (Raised "IndexError"))
    as (_ & H & _).
  - simpl. left. reflexivity.
  - split; [exact H |]. split; reflexivity.
Defined.

(** The write is refused. *)
Lemma failed_write_is_swallowed_witness :
  let o := run (Demo.fabric "DirectLake" false true)
               (update_direct_lake_model_lakehouse_connection
                  "Sales" (Some "ws") (Some "Lake") None) 0%nat in
  exists t r,
    last_exit (run_trace o) = Some (t, None, r)
    /\ run_result o = match r with
                      | Ok _ => Ok tt
                      | Err e' => Err e'
                      end.
Proof.
  apply (failed_write_is_swallowed nat (Demo.fabric "DirectLake" false true) 0%nat
           "Sales" (Some "ws") (Some "Lake") None (Raised "InvalidOperation")).
  right. exists "DatabaseQuery", (VStr "let database = Sql.Database() in database").
  simpl. left. reflexivity.
Defined.

(** The save is refused after the write. *)
Lemma success_message_before_the_exit_witness :
  let o := run (Demo.fabric "DirectLake" true false)
               (update_direct_lake_model_lakehouse_connection
                  "Sales" (Some "ws") (Some "Lake") None) 0%nat in
  last (answers printed (run_trace o)) "" = msg_updated "Sales" "Lake" "ws"
  /\ run_result o = Err (Raised "SaveChanges").
Proof.
  destruct (success_message_before_the_exit nat (Demo.fabric "DirectLake" true false)
              0%nat "Sales" (Some "ws") (Some "Lake") None
              "DatabaseQuery" (VStr "let database = Sql.Database() in database")
              "Lake" "ws" (Ok (VStr "let database = Sql.Database() in database")))
    as (H & _).
  - simpl. left. reflexivity.
  - simpl. left. reflexivity.
  - split; [exact H | reflexivity].
Defined.

(** An import model. *)
Lemma last_message_is_the_outcome_witness :
  let o := run (Demo.fabric "Import" true true)
               (update_direct_lake_model_lakehouse_connection
                  "Sales" None None None) 0%nat in
  (count is_connection_event (run_trace o) = 0%nat
   /\ last (answers printed (run_trace o)) "" = msg_not_direct_lake "Sales")
  \/ (exists x v lh lw r0,
         In (x, v, Ok tt) (answers write_of (run_trace o))
         /\ In (lh, lw, r0) (answers shared_call (run_trace o))
         /\ last (answers printed (run_trace o)) "" = msg_updated "Sales" lh lw)
  \/ (((exists name e, In (name, Err e) (answers lookup_of (run_trace o)))
       \/ (exists x v e, In (x, v, Err e) (answers write_of (run_trace o))))
      /\ last (answers printed (run_trace o)) "" = msg_error "Sales").
Proof.
  destruct (last_message_is_the_outcome nat (Demo.fabric "Import" true true) 0%nat
              "Sales" None None None) as (_ & H).
  apply H.
  - reflexivity.
  - intros t exc r Hin. simpl in Hin. destruct Hin.
Defined.

(** The items of the workspace cannot be listed. *)
Lemma resolution_failure_witness :
  let o := run (DemoMore.collaborators (Err (Raised "FabricHTTPException"))
                  (Ok (Demo.partitions "DirectLake"))
                  (Ok 7%nat) (Ok VNone) (Ok "DatabaseQuery") (Ok tt) (Ok false))
               (update_direct_lake_model_lakehouse_connection
                  "Sales" None None None) 0%nat in
  run_result o = Err (Raised "FabricHTTPException")
  /\ count is_connection_event (run_trace o) = 0%nat.
Proof.
  apply (resolution_failure_leaves_the_model_alone nat
           (DemoMore.collaborators (Err (Raised "FabricHTTPException"))
              (Ok (Demo.partitions "DirectLake"))
              (Ok 7%nat) (Ok VNone) (Ok "DatabaseQuery") (Ok tt) (Ok false)) 0%nat
           "Sales" None None None (Raised "FabricHTTPException")).
  simpl. left. reflexivity.
Defined.

(** The model cannot be connected to. *)
Lemma failed_entry_has_no_exit_witness :
  let o := run (DemoMore.collaborators (Ok Demo.lakehouses)
                  (Ok (Demo.partitions "DirectLake"))
                  (Err (Raised "ConnectionException")) (Ok VNone)
                  (Ok "DatabaseQuery") (Ok tt) (Ok false))
               (update_direct_lake_model_lakehouse_connection
                  "Sales" None None None) 0%nat in
  run_result o = Err (Raised "ConnectionException")
  /\ count is_exit (run_trace o) = 0%nat.
Proof.
  destruct (failed_entry_has_no_exit nat
              (DemoMore.collaborators (Ok Demo.lakehouses)
                 (Ok (Demo.partitions "DirectLake"))
                 (Err (Raised "ConnectionException")) (Ok VNone)
                 (Ok "DatabaseQuery") (Ok tt) (Ok false)) 0%nat
              "Sales" None None None (Raised "ConnectionException"))
    as (H1 & H2 & _).
  - simpl. left. reflexivity.
  - split; [exact H1 | exact H2].
Defined.

End UpdateDirectLakeMore.
